(** * Dash financial dashboard (dash_finance_dashboard.py): model and properties

    A shallow embedding of the dashboard's data layer and of its two
    callbacks.  A DataFrame is the list of its rows, in row order; a Python
    dict is an association list in insertion order; a Python float is a
    binary64 primitive float; a statement that can raise is a computation in
    the [result] monad. *)

From Stdlib Require Import ZArith List String Ascii Bool Lia Floats.
From Stdlib Require Import DecimalString Sorted Permutation.
Import ListNotations.

#[local] Set Warnings "-inexact-float,-register-all".
#[local] Open Scope string_scope.
#[local] Open Scope list_scope.
#[local] Open Scope Z_scope.

(** ** Python exceptions and the error monad *)

Inductive exn : Set :=
| KeyError
| IndexError
| ValueError.

Inductive result (A : Type) : Type :=
| Ok (a : A)
| Raise (e : exn).

Arguments Ok {A} a.
Arguments Raise {A} e.

Definition bind {A B : Type} (m : result A) (k : A -> result B) : result B :=
  match m with
  | Ok a => k a
  | Raise e => Raise e
  end.

Notation "x <- m ;; k" := (bind m (fun x => k))
  (at level 61, m at next level, right associativity).
Notation "' p <- m ;; k" := (bind m (fun x => let p := x in k))
  (at level 61, p pattern, m at next level, right associativity).

(** [for x in xs: body], the loop state threaded through the iterations. *)
Fixpoint for_each {A S : Type} (xs : list A) (body : A -> S -> result S)
    (s : S) : result S :=
  match xs with
  | [] => Ok s
  | x :: xs' => s' <- body x s ;; for_each xs' body s'
  end.

(** ** Python containers *)

(** A dict keyed by strings, in insertion order. *)
Definition dict (V : Type) : Type := list (string * V).

Definition items {V : Type} (d : dict V) : list (string * V) := d.

(** [d[k]]: the value of the first entry for [k], KeyError when there is none. *)
Fixpoint dict_getitem {V : Type} (d : dict V) (k : string) : result V :=
  match d with
  | [] => Raise KeyError
  | (k', v) :: d' => if String.eqb k' k then Ok v else dict_getitem d' k
  end.

(** [l[i]] for a non-negative index. *)
Fixpoint list_getitem {A : Type} (l : list A) (i : nat) : result A :=
  match l, i with
  | [], _ => Raise IndexError
  | a :: _, O => Ok a
  | _ :: l', S i' => list_getitem l' i'
  end.

Fixpoint enumerate_from {A : Type} (n : nat) (l : list A) : list (nat * A) :=
  match l with
  | [] => []
  | a :: l' => (n, a) :: enumerate_from (S n) l'
  end.

Definition enumerate {A : Type} (l : list A) : list (nat * A) :=
  enumerate_from 0 l.

(** ** The data (lines 21-42) *)

Definition years : list string :=
  ["Mar-21"; "Mar-22"; "Mar-23"; "Mar-24"; "Mar-25"].

Definition year_numbers : list Z := [2021; 2022; 2023; 2024; 2025].

Definition dixon : dict (list float) :=
  [ ("Current Ratio", [1.17; 1.15; 1.07; 1.48; 1.33]%float);
    ("Quick Ratio", [1.12; 1.14; 1.27; 1.12; 1.01]%float);
    ("Gross Profit Margin", [4.04; 3.04; 4.33; 3.91; 3.25]%float);
    ("Net Profit Margin", [2.48; 1.78; 2.09; 2.08; 2.82]%float);
    ("Inventory Turnover",
      [15.48176253; 10.41597944; 10.42333314; 12.16973252; 12.69463956]%float);
    ("Asset Turnover", [2.27; 2.49; 2.60; 2.52; 2.30]%float);
    ("Trade Receivable Turnover", [11.84; 8.73; 7.93; 8.73; 8.31]%float) ].

Definition honeywell : dict (list float) :=
  [ ("Current Ratio", [2.72; 3.26; 3.41; 3.66; 3.45]%float);
    ("Quick Ratio", [2.61; 3.13; 3.22; 3.49; 3.24]%float);
    ("Gross Profit Margin", [17.75; 12.91; 13.54; 13.20; 12.65]%float);
    ("Net Profit Margin", [15.11; 11.50; 12.70; 12.35; 12.49]%float);
    ("Inventory Turnover", [31.89; 29.90; 20.94; 25.51; 17.66]%float);
    ("Asset Turnover", [1.28; 1.09; 1.14; 1.19; 1.10]%float);
    ("Trade Receivable Turnover", [3.58; 3.62; 4.28; 4.35; 4.20]%float) ].

(** ** The tidy dataframe (lines 45-51) *)

Record row : Type := mkRow {
  Company : string;
  Metric : string;
  Value : float;
  YearLabel : string;
  Year : Z
}.

(** One inner loop of the build: a row per entry of the company's dict. *)
Definition append_company (company : string) (series : dict (list float))
    (i : nat) (y : string) (rows : list row) : result (list row) :=
  for_each (items series)
    (fun '(k, v) rows =>
       value <- list_getitem v i ;;
       year <- list_getitem year_numbers i ;;
       Ok (rows ++ [mkRow company k value y year]))
    rows.

Definition build_rows : result (list row) :=
  for_each (enumerate years)
    (fun '(i, y) rows =>
       rows <- append_company "Dixon" dixon i y rows ;;
       append_company "Honeywell" honeywell i y rows)
    [].

(** [df = pd.DataFrame(rows)]: the rows the build leaves, in append order. *)
Definition df : list row :=
  match build_rows with
  | Ok rows => rows
  | Raise _ => []
  end.

(** Metric groups for the UI (lines 54-58). *)
Definition metric_groups : dict (list string) :=
  [ ("liquidity", ["Current Ratio"; "Quick Ratio"]);
    ("profitability", ["Gross Profit Margin"; "Net Profit Margin"]);
    ("turnover",
      ["Inventory Turnover"; "Asset Turnover"; "Trade Receivable Turnover"]) ].

(** ** Frame operations used by the callbacks *)

(** [frame.empty]. *)
Definition empty {A : Type} (l : list A) : bool :=
  match l with
  | [] => true
  | _ :: _ => false
  end.

(** [frame.sort_values('Year')]: ascending, rows of equal year kept in their
    order.  pandas does not promise that order for its default sort; the
    callbacks sort the rows of one company and one metric only, whose years
    are distinct, where every ascending sort gives the same frame. *)
Fixpoint insert_by_year (r : row) (l : list row) : list row :=
  match l with
  | [] => [r]
  | r' :: l' =>
      if Z.leb (Year r) (Year r') then r :: l else r' :: insert_by_year r l'
  end.

Fixpoint sort_values_Year (l : list row) : list row :=
  match l with
  | [] => []
  | r :: l' => insert_by_year r (sort_values_Year l')
  end.

(** [series.iloc[-1]]. *)
Fixpoint iloc_last {A : Type} (l : list A) : result A :=
  match l with
  | [] => Raise IndexError
  | [a] => Ok a
  | _ :: l' => iloc_last l'
  end.

(** [frame[(frame['Company'] == company) & (frame['Metric'] == metric)]]. *)
Definition select (frame : list row) (company metric : string) : list row :=
  filter
    (fun r => String.eqb (Company r) company && String.eqb (Metric r) metric)
    frame.

(** Helper to fetch latest KPI (lines 61-65); [None] is Python's None. *)
Definition kpi_latest (df_local : list row) (company metric : string)
    : result (option float) :=
  let sub := select df_local company metric in
  if empty sub then Ok None
  else v <- iloc_last (map Value (sort_values_Year sub)) ;; Ok (Some v).

(** ** Formatting a float with [f"{v:.2f}"] *)

(** [num / den] rounded to the nearest integer, ties to even ([den > 0]). *)
Definition div_half_even (num den : Z) : Z :=
  let q := num / den in
  match Z.compare (2 * (num mod den)) den with
  | Lt => q
  | Gt => q + 1
  | Eq => if Z.even q then q else q + 1
  end.

(** [m * 2^e * 100], correctly rounded to an integer. *)
Definition hundredths (m : positive) (e : Z) : Z :=
  if Z.leb 0 e then Z.pos m * 2 ^ e * 100
  else div_half_even (Z.pos m * 100) (2 ^ (- e)).

Definition decimal (n : Z) : string :=
  NilZero.string_of_uint (N.to_uint (Z.to_N n)).

(** Two digits, with a leading zero below ten. *)
Definition pad2 (k : Z) : string :=
  ((if Z.ltb k 10 then "0" else "") ++ decimal k)%string.

(** [n] hundredths as text, with two decimals. *)
Definition fixed2 (negative : bool) (n : Z) : string :=
  ((if negative then "-" else "") ++ decimal (n / 100) ++ "."
   ++ pad2 (n mod 100))%string.

Definition format_2f (v : float) : string :=
  match Prim2SF v with
  | S754_zero s => fixed2 s 0
  | S754_infinity s => if s then "-inf" else "inf"
  | S754_nan => "nan"
  | S754_finite s m e => fixed2 s (hundredths m e)
  end.

(** ** The KPI callback (lines 138-168) *)

(** Dash components, with their children; style attributes are constants of
    the layout and are left out. *)
Inductive html : Type :=
| Str (s : string)
| Div (children : list html).

Definition kpis : list string :=
  ["Current Ratio"; "Quick Ratio"; "Gross Profit Margin"; "Net Profit Margin";
   "Inventory Turnover"; "Asset Turnover"].

(** [f"{val:.2f}" if val is not None else "—"]. *)
Definition kpi_text (val : option float) : string :=
  match val with
  | Some v => format_2f v
  | None => "—"
  end.

Definition both_body (metric : string) (d_val h_val : option float) : html :=
  Div [ Div [Str metric];
        Div [ Div [Div [Str "Dixon"]; Div [Str (kpi_text d_val)]];
              Div [Div [Str "Honeywell"]; Div [Str (kpi_text h_val)]] ] ].

Definition single_body (metric : string) (val : option float) : html :=
  Div [ Div [Str metric]; Div [Str (kpi_text val)] ].

Definition kpi_body (company metric : string) : result html :=
  if String.eqb company "Both" then
    d_val <- kpi_latest df "Dixon" metric ;;
    h_val <- kpi_latest df "Honeywell" metric ;;
    Ok (both_body metric d_val h_val)
  else
    val <- kpi_latest df company metric ;;
    Ok (single_body metric val).

Definition update_kpis (company : string) : result (list html) :=
  for_each kpis
    (fun metric cards =>
       body <- kpi_body company metric ;;
       let card := Div [body] in
       Ok (cards ++ [card]))
    [].

(** ** Plotly figures *)

Inductive pyval : Type :=
| PStr (s : string)
| PInt (n : Z)
| PDict (d : list (string * Z)).

Inductive trace : Type :=
| Bar (x : list string) (y : list float) (name : string)
      (text : list string) (textposition : string)
| Scatter (x : list string) (y : list float) (mode : string) (name : string).

Definition trace_x (t : trace) : list string :=
  match t with
  | Bar x _ _ _ _ => x
  | Scatter x _ _ _ => x
  end.

Definition trace_y (t : trace) : list float :=
  match t with
  | Bar _ y _ _ _ => y
  | Scatter _ y _ _ => y
  end.

Definition trace_name (t : trace) : string :=
  match t with
  | Bar _ _ name _ _ => name
  | Scatter _ _ _ name => name
  end.

Record figure : Type := mkFigure {
  data : list trace;
  layout : dict pyval
}.

(** [go.Figure()]. *)
Definition Figure : figure := mkFigure [] [].

Definition add_trace (fig : figure) (t : trace) : figure :=
  mkFigure (data fig ++ [t]) (layout fig).

(** [d[k] = v] on a dict: the entry is replaced in place, or appended. *)
Fixpoint dict_setitem {V : Type} (d : dict V) (k : string) (v : V) : dict V :=
  match d with
  | [] => [(k, v)]
  | (k', v') :: d' =>
      if String.eqb k' k then (k, v) :: d' else (k', v') :: dict_setitem d' k v
  end.

Definition update_layout (fig : figure) (kwargs : list (string * pyval))
    : figure :=
  mkFigure (data fig)
    (fold_left (fun l kv => dict_setitem l (fst kv) (snd kv)) kwargs
       (layout fig)).

(** ** [str.title()] on ASCII text *)

Definition is_lower (a : ascii) : bool :=
  Nat.leb 97 (nat_of_ascii a) && Nat.leb (nat_of_ascii a) 122.

Definition is_upper (a : ascii) : bool :=
  Nat.leb 65 (nat_of_ascii a) && Nat.leb (nat_of_ascii a) 90.

Definition to_upper (a : ascii) : ascii :=
  if is_lower a then ascii_of_nat (nat_of_ascii a - 32) else a.

Definition to_lower (a : ascii) : ascii :=
  if is_upper a then ascii_of_nat (nat_of_ascii a + 32) else a.

Fixpoint title_from (prev_cased : bool) (s : string) : string :=
  match s with
  | EmptyString => EmptyString
  | String a s' =>
      if is_lower a || is_upper a then
        String (if prev_cased then to_lower a else to_upper a)
               (title_from true s')
      else String a (title_from false s')
  end.

Definition str_title (s : string) : string := title_from false s.

(** ** The pivoted table (line 224)

    [frame.pivot_table(index='YearLabel', columns=['Company', 'Metric'],
    values='Value')] groups the rows by (YearLabel, Company, Metric),
    aggregates each group's values with the default [aggfunc], the mean, and
    lays the groups out with the sorted year labels as the index and the
    sorted (Company, Metric) pairs as the columns.  A cell with no group is
    missing: [None] here, NaN in the frame.  No value of [df] is NaN, so every
    label and every column has a cell that is present and pandas' [dropna]
    drops nothing. *)

Definition column : Type := (string * string)%type.

Definition column_compare (a b : column) : comparison :=
  match String.compare (fst a) (fst b) with
  | Eq => String.compare (snd a) (snd b)
  | c => c
  end.

Fixpoint insert_unique {A : Type} (cmp : A -> A -> comparison) (a : A)
    (l : list A) : list A :=
  match l with
  | [] => [a]
  | b :: l' =>
      match cmp a b with
      | Lt => a :: l
      | Eq => l
      | Gt => b :: insert_unique cmp a l'
      end
  end.

(** The distinct elements of [l], ascending. *)
Definition sorted_unique {A : Type} (cmp : A -> A -> comparison) (l : list A)
    : list A :=
  fold_right (insert_unique cmp) [] l.

Record table : Type := mkTable {
  index : list string;
  columns : list column;
  cells : list (list (option float))
}.

(** Whether a row is of the group (YearLabel, Company, Metric). *)
Definition in_group (label : string) (col : column) (r : row) : bool :=
  String.eqb (YearLabel r) label && String.eqb (Company r) (fst col)
  && String.eqb (Metric r) (snd col).

(** The values of a group, in row order. *)
Definition group_values (frame : list row) (label : string) (col : column)
    : list float :=
  map Value (filter (in_group label col) frame).

Definition float_of_nat (n : nat) : float :=
  PrimFloat.of_uint63 (Uint63.of_Z (Z.of_nat n)).

(** The mean of a group: its sum, left to right from zero, over its size. *)
Definition mean (vs : list float) : float :=
  PrimFloat.div (fold_left PrimFloat.add vs 0%float)
    (float_of_nat (List.length vs)).

(** The pivot, for an aggregation [aggfunc] of a non-empty group. *)
Definition pivot_with (aggfunc : list float -> float) (frame : list row)
    : table :=
  let labels := sorted_unique String.compare (map YearLabel frame) in
  let cols :=
    sorted_unique column_compare
      (map (fun r => (Company r, Metric r)) frame) in
  mkTable labels cols
    (map (fun label =>
            map (fun col =>
                   match group_values frame label col with
                   | [] => None
                   | vs => Some (aggfunc vs)
                   end)
                cols)
         labels).

Definition pivot_table (frame : list row) : table := pivot_with mean frame.

(** Position of [a] in [l]. *)
Fixpoint position {A : Type} (eqb : A -> A -> bool) (a : A) (l : list A)
    : option nat :=
  match l with
  | [] => None
  | b :: l' =>
      if eqb b a then Some O else option_map S (position eqb a l')
  end.

Definition column_eqb (a b : column) : bool :=
  String.eqb (fst a) (fst b) && String.eqb (snd a) (snd b).

(** [t.loc[label, (company, metric)]]: the cell when the label is in the
    index, the column exists and the cell is present. *)
Definition table_cell (t : table) (label : string) (col : column)
    : option float :=
  match position String.eqb label (index t),
        position column_eqb col (columns t) with
  | Some i, Some j => nth j (nth i (cells t) []) None
  | _, _ => None
  end.

(** ** [frame.round(3)] *)

Definition sign_bit (v : float) : bool :=
  match Prim2SF v with
  | S754_zero s => s
  | S754_infinity s => s
  | S754_nan => false
  | S754_finite s _ _ => s
  end.

(** Round to the nearest integer, ties to even. *)
Definition rint (v : float) : float :=
  let a := PrimFloat.abs v in
  if PrimFloat.ltb a 0x1p52%float then
    let r := PrimFloat.sub (PrimFloat.add a 0x1p52%float) 0x1p52%float in
    if sign_bit v then PrimFloat.opp r else r
  else v.

(** numpy's [round(v, decimals)]: scale, [rint], scale back. *)
Definition round_decimals (decimals : nat) (v : float) : float :=
  let scale := float_of_nat (10 ^ decimals) in
  PrimFloat.div (rint (PrimFloat.mul v scale)) scale.

Definition table_round (decimals : nat) (t : table) : table :=
  mkTable (index t) (columns t)
    (map (map (option_map (round_decimals decimals))) (cells t)).

(** ** The chart callback (lines 170-226) *)

(** [a, b = l]. *)
Definition unpack2 {A : Type} (l : list A) : result (A * A) :=
  match l with
  | [a; b] => Ok (a, b)
  | _ => Raise ValueError
  end.

(** [series.isin(values)], row by row. *)
Definition isin (v : string) (values : list string) : bool :=
  existsb (String.eqb v) values.

(** The filtered frame [dff] (line 182). *)
Definition filter_by_group_and_range (frame : list row)
    (metrics : list string) (yr_min yr_max : Z) : list row :=
  filter
    (fun r => isin (Metric r) metrics && Z.leb yr_min (Year r)
              && Z.leb (Year r) yr_max)
    frame.

(** [dff[...].sort_values('Year')] for one company and one metric. *)
Definition series_for (dff : list row) (company metric : string) : list row :=
  sort_values_Year (select dff company metric).

Definition bar_trace (s : list row) (name : string) : trace :=
  Bar (map YearLabel s) (map Value s) name
    (map format_2f (map Value s)) "auto".

Definition scatter_trace (s : list row) (name : string) : trace :=
  Scatter (map YearLabel s) (map Value s) "lines+markers" name.

Definition companies : list string := ["Dixon"; "Honeywell"].

Definition main_chart (dff : list row) (company group : string)
    (metrics : list string) : figure :=
  let fig := Figure in
  if String.eqb company "Both" then
    let fig :=
      fold_left
        (fun fig metric =>
           fold_left
             (fun fig comp =>
                let s := series_for dff comp metric in
                add_trace fig (bar_trace s (comp ++ " — " ++ metric)%string))
             companies fig)
        metrics fig in
    update_layout fig
      [ ("barmode", PStr "group");
        ("title", PStr "Comparison — grouped by metric & company");
        ("xaxis_title", PStr "Year"); ("yaxis_title", PStr "Value") ]
  else
    let fig :=
      fold_left
        (fun fig metric =>
           let s := series_for dff company metric in
           add_trace fig (bar_trace s metric))
        metrics fig in
    update_layout fig
      [ ("barmode", PStr "group");
        ("title", PStr (company ++ " — " ++ str_title group)%string);
        ("xaxis_title", PStr "Year"); ("yaxis_title", PStr "Value") ].

Definition spark_chart (dff : list row) (company primary : string) : figure :=
  let spark := Figure in
  let spark :=
    if String.eqb company "Both" then
      fold_left
        (fun spark comp =>
           let s := series_for dff comp primary in
           add_trace spark (scatter_trace s comp))
        companies spark
    else
      let s := series_for dff company primary in
      add_trace spark (scatter_trace s company) in
  update_layout spark
    [ ("title", PStr ("Trend — " ++ primary)%string);
      ("margin", PDict [("t", 30); ("b", 10); ("l", 30); ("r", 10)]);
      ("height", PInt 240) ].

(** The callback.  The third output is the rounded frame that [to_csv]
    serialises into the [html.Pre]; the serialisation itself is pandas' and is
    not modelled. *)
Definition update_charts (company group : string) (year_range : list Z)
    : result (figure * figure * table) :=
  ' (yr_min, yr_max) <- unpack2 year_range ;;
  metrics <- dict_getitem metric_groups group ;;
  let dff := filter_by_group_and_range df metrics yr_min yr_max in
  let fig := main_chart dff company group metrics in
  primary <- list_getitem metrics 0 ;;
  let spark := spark_chart dff company primary in
  let table_df := pivot_table dff in
  Ok (fig, spark, table_round 3 table_df).

(** ** Control state and callback wiring (lines 138-141, 170-177) *)

Record ControlState : Type := mkControlState {
  company_select : string;
  metric_group : string;
  year_range_value : list Z
}.

(** The initial values of the three controls (lines 86, 100, 111). *)
Definition initial_state : ControlState :=
  mkControlState "Both" "liquidity" [2021; 2025].

(** [Output('kpi-cards', 'children')] from [Input('company-select', 'value')]. *)
Definition kpi_cards (st : ControlState) : result (list html) :=
  update_kpis (company_select st).

(** The three chart outputs from the three inputs. *)
Definition chart_outputs (st : ControlState)
    : result (figure * figure * table) :=
  update_charts (company_select st) (metric_group st) (year_range_value st).

(** ** Vocabulary of the statements *)

(** Whether no element of [l] occurs twice, for an equality test [eqb]. *)
Fixpoint nodupb {A : Type} (eqb : A -> A -> bool) (l : list A) : bool :=
  match l with
  | [] => true
  | a :: l' => negb (existsb (eqb a) l') && nodupb eqb l'
  end.

(** The (company, metric, year) triple of a row. *)
Definition triple (r : row) : string * string * Z :=
  (Company r, Metric r, Year r).

Definition triple_eqb (a b : string * string * Z) : bool :=
  String.eqb (fst (fst a)) (fst (fst b))
  && String.eqb (snd (fst a)) (snd (fst b))
  && Z.eqb (snd a) (snd b).

(** The build as the spec words it: for each year, ascending, Dixon's metrics
    in insertion order and then Honeywell's. *)
Definition rows_in_spec_order : list row :=
  flat_map
    (fun i =>
       map (fun kv =>
              mkRow "Dixon" (fst kv) (nth i (snd kv) 0%float)
                (nth i years "") (nth i year_numbers 0))
           dixon
       ++ map (fun kv =>
                 mkRow "Honeywell" (fst kv) (nth i (snd kv) 0%float)
                   (nth i years "") (nth i year_numbers 0))
              honeywell)
    (seq 0 5).

Definition year_le (a b : row) : Prop := Year a <= Year b.

(** The latest value as a total function: what [kpi_latest] returns. *)
Definition latest (company metric : string) : option float :=
  match kpi_latest df company metric with
  | Ok v => v
  | Raise _ => None
  end.

Definition is_digit (a : ascii) : bool :=
  Nat.leb 48 (nat_of_ascii a) && Nat.leb (nat_of_ascii a) 57.

Fixpoint all_digits (s : string) : bool :=
  match s with
  | EmptyString => true
  | String a s' => is_digit a && all_digits s'
  end.

(** An optional minus sign, at least one digit, a point and two digits. *)
Definition two_decimals (s : string) : Prop :=
  exists sign int frac,
    s = (sign ++ int ++ "." ++ frac)%string
    /\ (sign = "" \/ sign = "-")
    /\ int <> "" /\ all_digits int = true
    /\ String.length frac = 2%nat /\ all_digits frac = true.

(** Neither NaN nor an infinity. *)
Definition finite (v : float) : Prop :=
  match Prim2SF v with
  | S754_zero _ | S754_finite _ _ _ => True
  | S754_infinity _ | S754_nan => False
  end.

(** The bar series of the main chart, in the order they are added. *)
Definition main_series (dff : list row) (company : string)
    (metrics : list string) : list trace :=
  if String.eqb company "Both" then
    flat_map
      (fun metric =>
         map (fun comp =>
                bar_trace (series_for dff comp metric)
                  (comp ++ " — " ++ metric)%string)
             companies)
      metrics
  else map (fun metric => bar_trace (series_for dff company metric) metric)
           metrics.

(** The sparkline's series. *)
Definition spark_series (dff : list row) (company primary : string)
    : list trace :=
  if String.eqb company "Both" then
    map (fun comp => scatter_trace (series_for dff comp primary) comp)
        companies
  else [scatter_trace (series_for dff company primary) company].

(** A series with no point. *)
Definition empty_series (t : trace) : Prop := trace_x t = [] /\ trace_y t = [].

(** The label and column of a row, the key of its group. *)
Definition group_key (r : row) : string * column :=
  (YearLabel r, (Company r, Metric r)).

Definition group_key_eqb (a b : string * column) : bool :=
  String.eqb (fst a) (fst b) && column_eqb (snd a) (snd b).

(** The plain pivot: a cell is the value of its group's one row. *)
Definition one_value (vs : list float) : float :=
  match vs with
  | v :: _ => v
  | [] => nan
  end.

Definition pivot_lookup (frame : list row) : table := pivot_with one_value frame.

(** Whether the year of a row lies in [yr_min, yr_max]. *)
Definition in_range (yr_min yr_max : Z) (r : row) : bool :=
  Z.leb yr_min (Year r) && Z.leb (Year r) yr_max.

(** The table among the three outputs of [update_charts]. *)
Definition table_output (out : result (figure * figure * table))
    : result table :=
  o <- out ;; Ok (snd o).

(** The points of a series and, for a bar series, the labels on its bars. *)
Definition trace_text (t : trace) : list string :=
  match t with
  | Bar _ _ _ text _ => text
  | Scatter _ _ _ _ => []
  end.

Definition trace_points (t : trace) : list string * list float * list string :=
  (trace_x t, trace_y t, trace_text t).

(** [a1; b1; a2; b2; ...]. *)
Fixpoint interleave {A : Type} (l1 l2 : list A) : list A :=
  match l1, l2 with
  | a :: l1', b :: l2' => a :: b :: interleave l1' l2'
  | _, _ => []
  end.

(** ** The controls of the layout (lines 79-116) *)

(** The options of the two dropdowns, as (label, value). *)
Definition company_options : list (string * string) :=
  [ ("Dixon Technologies", "Dixon");
    ("Honeywell Automation", "Honeywell");
    ("Both Companies", "Both") ].

Definition group_options : list (string * string) :=
  [ ("Liquidity Ratios", "liquidity");
    ("Profitability Ratios", "profitability");
    ("Turnover Ratios", "turnover") ].

(** The marks of the range slider, [{y: str(y) for y in year_numbers}]; with
    [step=None] its two handles rest on marks only. *)
Definition slider_marks : list Z := year_numbers.

(** A state that the controls can produce: an option of each dropdown and two
    marks of the slider, the lower handle first. *)
Definition offered (st : ControlState) : Prop :=
  In (company_select st) (map snd company_options)
  /\ In (metric_group st) (map snd group_options)
  /\ exists lo hi,
       year_range_value st = [lo; hi]
       /\ In lo slider_marks /\ In hi slider_marks /\ lo <= hi.

(** Rows in strictly ascending year order. *)
Definition year_lt (a b : row) : Prop := Year a < Year b.

(** Whether a year lies in [yr_min, yr_max]. *)
Definition year_between (yr_min yr_max y : Z) : bool :=
  Z.leb yr_min y && Z.leb y yr_max.

(** The labels of the years that [p] holds of, in the order of [years]. *)
Definition labels_where (p : Z -> bool) : list string :=
  map snd (filter (fun yl => p (fst yl)) (combine year_numbers years)).

(** A cell that is not missing. *)
Definition present (c : option float) : Prop := c <> None.

(** The points of a series, without labels. *)
Definition trace_xy (t : trace) : list string * list float :=
  (trace_x t, trace_y t).

(** * Properties *)

(** ** Evaluating the build *)

Lemma build_rows_ok : build_rows = Ok df.
Proof. vm_compute. reflexivity. Qed.

(** Replace [df] by the list of its 70 rows in the goal. *)
Ltac eval_df :=
  let l := eval vm_compute in df in
  change df with l.

(** A property of every row of [df], checked row by row. *)
Ltac each_row tac :=
  eval_df; repeat (apply Forall_cons; [vm_compute; tac | ]);
  apply Forall_nil.

Lemma nodupb_sound {A : Type} (eqb : A -> A -> bool)
    (eqb_refl : forall a, eqb a a = true) (l : list A) :
  nodupb eqb l = true -> NoDup l.
Proof.
  induction l as [|a l IH]; simpl; intros H.
  - constructor.
  - apply andb_true_iff in H as [Hn Hl].
    constructor; [|auto].
    intros Hin. apply negb_true_iff in Hn.
    assert (existsb (eqb a) l = true) as E.
    { apply existsb_exists. exists a. auto. }
    congruence.
Qed.

Lemma position_sound {A : Type} (eqb : A -> A -> bool)
    (eqb_sound : forall a b, eqb a b = true -> a = b) (a : A) (l : list A)
    (i : nat) :
  position eqb a l = Some i -> nth_error l i = Some a.
Proof.
  revert i. induction l as [|b l IH]; simpl; intros i H; [discriminate|].
  destruct (eqb b a) eqn:E.
  - inversion H; subst. simpl. f_equal. auto.
  - destruct (position eqb a l) as [k|]; simpl in H; [|discriminate].
    inversion H; subst. simpl. auto.
Qed.

Lemma position_complete {A : Type} (eqb : A -> A -> bool)
    (eqb_refl : forall a, eqb a a = true) (a : A) (l : list A) :
  In a l -> exists i, position eqb a l = Some i.
Proof.
  induction l as [|b l IH]; simpl; intros H; [contradiction|].
  destruct (eqb b a) eqn:E; [eauto|].
  destruct H as [->|H]; [rewrite eqb_refl in E; discriminate|].
  destruct (IH H) as [i ->]. simpl. eauto.
Qed.

Lemma triple_eqb_sound a b : triple_eqb a b = true -> a = b.
Proof.
  destruct a as [[c m] y], b as [[c' m'] y']. unfold triple_eqb. simpl.
  intros H. apply andb_true_iff in H as [H Hy].
  apply andb_true_iff in H as [Hc Hm].
  apply String.eqb_eq in Hc, Hm. apply Z.eqb_eq in Hy. congruence.
Qed.

Lemma triple_eqb_refl a : triple_eqb a a = true.
Proof.
  unfold triple_eqb. now rewrite !String.eqb_refl, Z.eqb_refl.
Qed.

Lemma column_eqb_sound a b : column_eqb a b = true -> a = b.
Proof.
  destruct a as [c m], b as [c' m']. unfold column_eqb. simpl.
  intros H. apply andb_true_iff in H as [Hc Hm].
  apply String.eqb_eq in Hc, Hm. congruence.
Qed.

Lemma column_eqb_refl a : column_eqb a a = true.
Proof. unfold column_eqb. now rewrite !String.eqb_refl. Qed.

Lemma string_eqb_sound a b : String.eqb a b = true -> a = b.
Proof. apply String.eqb_eq. Qed.

Lemma df_triples_unique : NoDup (map triple df).
Proof.
  apply (nodupb_sound triple_eqb triple_eqb_refl).
  vm_compute. reflexivity.
Qed.

Lemma df_rows_unique : NoDup df.
Proof. exact (NoDup_map_inv triple df df_triples_unique). Qed.

(** C9: the startup build raises nothing and leaves exactly 70 rows
    (2 companies, 7 metrics each, 5 years), ordered by year ascending and,
    within a year, Dixon's metrics in insertion order followed by Honeywell's;
    no two rows share their (company, metric, year) triple. *)
Theorem C9_dataset_build :
  build_rows = Ok df
  /\ List.length df = 70%nat
  /\ List.length dixon = 7%nat /\ List.length honeywell = 7%nat
  /\ List.length years = 5%nat
  /\ year_numbers = [2021; 2022; 2023; 2024; 2025]
  /\ df = rows_in_spec_order
  /\ NoDup (map triple df).
Proof.
  split; [exact build_rows_ok|].
  split; [vm_compute; reflexivity|].
  do 4 (split; [reflexivity|]).
  split; [vm_compute; reflexivity|].
  exact df_triples_unique.
Qed.

(** ** Sorting by year and the latest value *)

Lemma insert_by_year_perm (r : row) (l : list row) :
  Permutation (r :: l) (insert_by_year r l).
Proof.
  induction l as [|r' l IH]; simpl; [reflexivity|].
  destruct (Z.leb (Year r) (Year r')); [reflexivity|].
  rewrite perm_swap. now apply perm_skip.
Qed.

Lemma sort_values_Year_perm (l : list row) :
  Permutation l (sort_values_Year l).
Proof.
  induction l as [|r l IH]; simpl; [constructor|].
  rewrite <- insert_by_year_perm. now apply perm_skip.
Qed.

Lemma insert_by_year_sorted (r : row) (l : list row) :
  StronglySorted year_le l -> StronglySorted year_le (insert_by_year r l).
Proof.
  induction 1 as [|r' l Hs IH Hall]; simpl.
  - repeat constructor.
  - destruct (Z.leb (Year r) (Year r')) eqn:E.
    + apply Z.leb_le in E. constructor; [now constructor|].
      constructor; [exact E|].
      eapply Forall_impl; [|exact Hall].
      unfold year_le. intros; lia.
    + apply Z.leb_gt in E. constructor; [exact IH|].
      apply (Permutation_Forall (insert_by_year_perm r l)).
      constructor; [unfold year_le; lia | exact Hall].
Qed.

Lemma sort_values_Year_sorted (l : list row) :
  StronglySorted year_le (sort_values_Year l).
Proof.
  induction l as [|r l IH]; simpl; [constructor|].
  now apply insert_by_year_sorted.
Qed.

Lemma sort_values_Year_in (l : list row) (r : row) :
  In r (sort_values_Year l) <-> In r l.
Proof.
  split; apply Permutation_in;
    [symmetry|]; apply sort_values_Year_perm.
Qed.

Lemma iloc_last_map {A B : Type} (f : A -> B) (l : list A) :
  iloc_last (map f l) = (a <- iloc_last l ;; Ok (f a)).
Proof.
  induction l as [|a [|b l] IH]; try reflexivity.
  exact IH.
Qed.

Lemma iloc_last_ok {A : Type} (l : list A) :
  l <> [] -> exists a, iloc_last l = Ok a.
Proof.
  induction l as [|a [|b l] IH]; intros H; [congruence|simpl; eauto|].
  apply IH. discriminate.
Qed.

Lemma iloc_last_in {A : Type} (l : list A) (a : A) :
  iloc_last l = Ok a -> In a l.
Proof.
  induction l as [|b [|c l] IH]; intros H; [discriminate| |].
  - inversion H. now left.
  - right. now apply IH.
Qed.

Lemma iloc_last_greatest (l : list row) (r : row) :
  StronglySorted year_le l -> iloc_last l = Ok r ->
  forall r', In r' l -> Year r' <= Year r.
Proof.
  induction 1 as [|a l Hs IH Hall]; intros Hl r' Hin; [contradiction|].
  destruct l as [|b l].
  - inversion Hl; subst. destruct Hin as [->|[]]. lia.
  - destruct Hin as [<-|Hin].
    + rewrite Forall_forall in Hall. apply Hall.
      now apply iloc_last_in.
    + now apply IH.
Qed.

Lemma empty_true {A : Type} (l : list A) : empty l = true <-> l = [].
Proof. destruct l; simpl; split; congruence. Qed.

(** What [kpi_latest] computes on any frame: [None] when no row matches,
    otherwise the value of a matching row of greatest year. *)
Lemma kpi_latest_spec (df_local : list row) (company metric : string) :
  (select df_local company metric = [] /\
   kpi_latest df_local company metric = Ok None)
  \/ (exists r,
        In r (select df_local company metric)
        /\ (forall r', In r' (select df_local company metric) ->
                       Year r' <= Year r)
        /\ iloc_last (sort_values_Year (select df_local company metric)) = Ok r
        /\ kpi_latest df_local company metric = Ok (Some (Value r))).
Proof.
  unfold kpi_latest.
  destruct (select df_local company metric) as [|r0 sub] eqn:E; [now left|].
  right. set (l := r0 :: sub) in *.
  assert (sort_values_Year l <> []) as Hne.
  { intros H. pose proof (sort_values_Year_perm l) as P. rewrite H in P.
    apply Permutation_sym, Permutation_nil in P. discriminate. }
  destruct (iloc_last_ok _ Hne) as [r Hr].
  exists r. split; [|split; [|split]].
  - apply sort_values_Year_in. now apply iloc_last_in.
  - intros r' Hin. apply (iloc_last_greatest (sort_values_Year l)); auto.
    + apply sort_values_Year_sorted.
    + now apply sort_values_Year_in.
  - exact Hr.
  - cbn [empty l]. rewrite iloc_last_map, Hr. reflexivity.
Qed.

Lemma kpi_latest_total (df_local : list row) (company metric : string) :
  exists v, kpi_latest df_local company metric = Ok v.
Proof.
  destruct (kpi_latest_spec df_local company metric) as [[_ H]|[r [_ [_ [_ H]]]]];
    eauto.
Qed.

Lemma select_in (frame : list row) (company metric : string) (r : row) :
  In r (select frame company metric)
  <-> In r frame /\ Company r = company /\ Metric r = metric.
Proof.
  unfold select. rewrite filter_In, andb_true_iff, !String.eqb_eq. tauto.
Qed.

(** Every row of [df] is of a year up to 2025, and its company and metric
    have a row of the year 2025. *)
Lemma df_years_up_to_2025 : Forall (fun r => Year r <= 2025) df.
Proof. each_row ltac:(easy). Qed.

Lemma df_has_2025 (r : row) :
  In r df ->
  exists r', In r' df /\ Company r' = Company r /\ Metric r' = Metric r
             /\ Year r' = 2025.
Proof.
  assert (forallb
            (fun r =>
               existsb
                 (fun r' => String.eqb (Company r') (Company r)
                            && String.eqb (Metric r') (Metric r)
                            && Z.eqb (Year r') 2025)
                 df)
            df = true) as H by (vm_compute; reflexivity).
  rewrite forallb_forall in H. intros Hin.
  apply H, existsb_exists in Hin as [r' [Hin Hr]].
  apply andb_true_iff in Hr as [Hr Hy]. apply andb_true_iff in Hr as [Hc Hm].
  apply String.eqb_eq in Hc, Hm. apply Z.eqb_eq in Hy. eauto.
Qed.

(** The companies and the metrics of [df]. *)
Lemma df_companies (r : row) : In r df -> In (Company r) companies.
Proof.
  revert r. apply Forall_forall. each_row ltac:(tauto).
Qed.

Lemma df_labels (r : row) : In r df -> In (YearLabel r) years.
Proof.
  revert r. apply Forall_forall. each_row ltac:(tauto).
Qed.

Lemma df_metrics (r : row) : In r df -> In (Metric r) (map fst dixon).
Proof.
  revert r. apply Forall_forall. each_row ltac:(tauto).
Qed.

(** C2: for a (company, metric) pair of the dataset, [kpi_latest] returns the
    value of the pair's row of greatest year, which is its row of 2025
    (1.33 for Dixon's Current Ratio, 12.49 for Honeywell's Net Profit Margin);
    for a pair with no row it returns None; it never raises. *)
Theorem C2_kpi_latest (company metric : string) :
  ((exists r0, In r0 df /\ Company r0 = company /\ Metric r0 = metric) ->
   exists r,
     In r df /\ Company r = company /\ Metric r = metric
     /\ Year r = 2025
     /\ (forall r', In r' df -> Company r' = company -> Metric r' = metric ->
                    Year r' <= Year r)
     /\ iloc_last (sort_values_Year (select df company metric)) = Ok r
     /\ kpi_latest df company metric = Ok (Some (Value r)))
  /\ ((forall r0, In r0 df -> ~ (Company r0 = company /\ Metric r0 = metric)) ->
      kpi_latest df company metric = Ok None)
  /\ kpi_latest df "Dixon" "Current Ratio" = Ok (Some 1.33%float)
  /\ kpi_latest df "Honeywell" "Net Profit Margin" = Ok (Some 12.49%float).
Proof.
  split; [|split; [|split; vm_compute; reflexivity]].
  - intros [r0 [Hin0 [Hc0 Hm0]]].
    destruct (kpi_latest_spec df company metric)
      as [[He _]|[r [Hin [Hmax [Hlast Hk]]]]].
    + assert (In r0 (select df company metric)) as H
        by (apply select_in; auto).
      rewrite He in H. contradiction.
    + exists r. apply select_in in Hin as Hr. destruct Hr as [Hdf [Hc Hm]].
      repeat split; auto.
      * destruct (df_has_2025 r Hdf) as [r1 [Hin1 [Hc1 [Hm1 Hy1]]]].
        assert (Year r1 <= Year r) as Hle
          by (apply Hmax, select_in; repeat split; congruence).
        pose proof df_years_up_to_2025 as Hup.
        rewrite Forall_forall in Hup. specialize (Hup r Hdf). simpl in Hup.
        lia.
      * intros r' Hin' Hc' Hm'. apply Hmax, select_in. auto.
  - intros Habs.
    destruct (kpi_latest_spec df company metric)
      as [[_ Hk]|[r [Hin _]]]; [exact Hk|].
    apply select_in in Hin as [Hdf [Hc Hm]]. exfalso. eapply Habs; eauto.
Qed.

Lemma C2_kpi_latest_witness :
  (exists r,
     In r df /\ Company r = "Dixon" /\ Metric r = "Quick Ratio"
     /\ Year r = 2025
     /\ kpi_latest df "Dixon" "Quick Ratio" = Ok (Some (Value r)))
  /\ kpi_latest df "Dixon" "Net Worth" = Ok None.
Proof.
  split.
  - destruct (proj1 (C2_kpi_latest "Dixon" "Quick Ratio")) as [r H].
    + exists (mkRow "Dixon" "Quick Ratio" 1.12%float "Mar-21" 2021).
      split; [vm_compute; tauto | split; reflexivity].
    + exists r. tauto.
  - apply (proj1 (proj2 (C2_kpi_latest "Dixon" "Net Worth"))).
    intros r0 Hin [_ Hm]. apply df_metrics in Hin. rewrite Hm in Hin.
    simpl in Hin. intuition discriminate.
Defined.

(** ** The filtered frame *)

Lemma isin_In (v : string) (values : list string) :
  isin v values = true <-> In v values.
Proof.
  unfold isin. rewrite existsb_exists. split.
  - intros [x [Hin Hx]]. apply String.eqb_eq in Hx. now subst.
  - intros Hin. exists v. split; [exact Hin | apply String.eqb_refl].
Qed.

Lemma filter_by_group_and_range_in (frame : list row) (metrics : list string)
    (yr_min yr_max : Z) (r : row) :
  In r (filter_by_group_and_range frame metrics yr_min yr_max)
  <-> In r frame /\ In (Metric r) metrics /\ yr_min <= Year r <= yr_max.
Proof.
  unfold filter_by_group_and_range.
  rewrite filter_In, !andb_true_iff, isin_In, !Z.leb_le. tauto.
Qed.

(** The three keys of [metric_groups] and their lists. *)
Lemma metric_groups_inv (group : string) (metrics : list string) :
  dict_getitem metric_groups group = Ok metrics ->
  (group = "liquidity" /\ metrics = ["Current Ratio"; "Quick Ratio"])
  \/ (group = "profitability"
      /\ metrics = ["Gross Profit Margin"; "Net Profit Margin"])
  \/ (group = "turnover"
      /\ metrics = ["Inventory Turnover"; "Asset Turnover";
                    "Trade Receivable Turnover"]).
Proof.
  unfold metric_groups. cbn [dict_getitem].
  destruct (String.eqb_spec "liquidity" group) as [<-|_];
    [intros H; inversion H; auto|].
  destruct (String.eqb_spec "profitability" group) as [<-|_];
    [intros H; inversion H; auto|].
  destruct (String.eqb_spec "turnover" group) as [<-|_];
    [intros H; inversion H; auto|].
  discriminate.
Qed.

Lemma metric_groups_unknown (group : string) :
  group <> "liquidity" -> group <> "profitability" -> group <> "turnover" ->
  dict_getitem metric_groups group = Raise KeyError.
Proof.
  intros H1 H2 H3. unfold metric_groups. cbn [dict_getitem].
  destruct (String.eqb_spec "liquidity" group); [congruence|].
  destruct (String.eqb_spec "profitability" group); [congruence|].
  destruct (String.eqb_spec "turnover" group); [congruence|].
  reflexivity.
Qed.

(** C3: the filtered frame of [update_charts] holds exactly the rows of [df]
    whose metric is in the group's list and whose year lies in
    [yr_min, yr_max], each once; for the liquidity group and 2021..2025 these
    are 20 rows, and for each of the three groups and 2023..2024 they are
    2 years x (metrics of the group) x 2 companies. *)
Theorem C3_filter_by_group_and_range (group : string) (metrics : list string)
    (yr_min yr_max : Z) :
  (forall r,
     In r (filter_by_group_and_range df metrics yr_min yr_max)
     <-> In r df /\ In (Metric r) metrics /\ yr_min <= Year r <= yr_max)
  /\ NoDup (filter_by_group_and_range df metrics yr_min yr_max)
  /\ (exists liquidity,
        dict_getitem metric_groups "liquidity" = Ok liquidity
        /\ List.length (filter_by_group_and_range df liquidity 2021 2025)
           = 20%nat)
  /\ (dict_getitem metric_groups group = Ok metrics ->
      List.length (filter_by_group_and_range df metrics 2023 2024)
      = (2 * List.length metrics * 2)%nat).
Proof.
  split; [intros r; apply filter_by_group_and_range_in|].
  split; [apply NoDup_filter, df_rows_unique|].
  split; [eexists; split; [reflexivity | vm_compute; reflexivity]|].
  intros H.
  destruct (metric_groups_inv _ _ H) as [[_ ->]|[[_ ->]|[_ ->]]];
    vm_compute; reflexivity.
Qed.

Lemma C3_filter_by_group_and_range_witness :
  List.length
    (filter_by_group_and_range df
       ["Inventory Turnover"; "Asset Turnover"; "Trade Receivable Turnover"]
       2023 2024)
  = 12%nat.
Proof.
  apply (proj2 (proj2 (proj2
           (C3_filter_by_group_and_range "turnover"
              ["Inventory Turnover"; "Asset Turnover";
               "Trade Receivable Turnover"] 0 0)))).
  reflexivity.
Defined.

(** ** The KPI cards *)

Lemma for_each_append {A B C : Type} (f : A -> result B) (g : A -> B -> C)
    (h : A -> B) (xs : list A) (acc : list C) :
  (forall x, In x xs -> f x = Ok (h x)) ->
  for_each xs (fun x acc => b <- f x ;; Ok (acc ++ [g x b])) acc
  = Ok (acc ++ map (fun x => g x (h x)) xs).
Proof.
  revert acc. induction xs as [|x xs IH]; intros acc H; simpl.
  - now rewrite app_nil_r.
  - rewrite (H x (or_introl eq_refl)). simpl.
    rewrite IH by (intros; apply H; now right).
    now rewrite <- app_assoc.
Qed.

Lemma kpi_latest_latest (company metric : string) :
  kpi_latest df company metric = Ok (latest company metric).
Proof.
  unfold latest. destruct (kpi_latest_total df company metric) as [v ->].
  reflexivity.
Qed.

Lemma latest_unknown_company (company metric : string) :
  ~ In company companies -> latest company metric = None.
Proof.
  intros H. unfold latest.
  destruct (kpi_latest_spec df company metric)
    as [[_ ->]|[r [Hin _]]]; [reflexivity|].
  apply select_in in Hin as [Hdf [Hc _]].
  apply df_companies in Hdf. congruence.
Qed.

Lemma update_kpis_both :
  update_kpis "Both"
  = Ok (map (fun metric =>
               Div [both_body metric (latest "Dixon" metric)
                      (latest "Honeywell" metric)])
            kpis).
Proof. vm_compute. reflexivity. Qed.

Lemma update_kpis_single (company : string) :
  company <> "Both" ->
  update_kpis company
  = Ok (map (fun metric => Div [single_body metric (latest company metric)])
            kpis).
Proof.
  intros H. unfold update_kpis.
  apply (for_each_append (kpi_body company) (fun _ body => Div [body])
           (fun metric => single_body metric (latest company metric))
           kpis []).
  intros metric _. unfold kpi_body.
  destruct (String.eqb_spec company "Both"); [contradiction|].
  now rewrite kpi_latest_latest.
Qed.

(** ** Two decimal places *)

Lemma string_of_uint_digits (d : Decimal.uint) :
  all_digits (NilEmpty.string_of_uint d) = true.
Proof. induction d; simpl; auto. Qed.

Lemma decimal_digits (n : Z) :
  decimal n <> "" /\ all_digits (decimal n) = true.
Proof.
  unfold decimal, NilZero.string_of_uint.
  destruct (N.to_uint (Z.to_N n)); split;
    try (simpl; discriminate); try reflexivity;
    apply string_of_uint_digits.
Qed.

Lemma pad2_two_digits (k : Z) :
  0 <= k < 100 -> String.length (pad2 k) = 2%nat /\ all_digits (pad2 k) = true.
Proof.
  intros H.
  assert (forallb
            (fun j => Nat.eqb (String.length (pad2 (Z.of_nat j))) 2
                      && all_digits (pad2 (Z.of_nat j)))
            (seq 0 100) = true) as F by (vm_compute; reflexivity).
  rewrite forallb_forall in F.
  assert (In (Z.to_nat k) (seq 0 100)) as Hin by (apply in_seq; lia).
  specialize (F _ Hin). rewrite Z2Nat.id in F by lia.
  apply andb_true_iff in F as [F1 F2].
  apply Nat.eqb_eq in F1. auto.
Qed.

Lemma fixed2_two_decimals (negative : bool) (n : Z) :
  two_decimals (fixed2 negative n).
Proof.
  exists (if negative then "-" else ""), (decimal (n / 100)), (pad2 (n mod 100)).
  destruct (decimal_digits (n / 100)) as [Hne Hd].
  destruct (pad2_two_digits (n mod 100)) as [Hl Hf];
    [apply Z.mod_pos_bound; lia|].
  repeat split; auto.
  destruct negative; auto.
Qed.

Lemma format_2f_two_decimals (v : float) :
  finite v -> two_decimals (format_2f v).
Proof.
  unfold finite, format_2f.
  destruct (Prim2SF v); intros H; try contradiction;
    apply fixed2_two_decimals.
Qed.

Lemma df_values_finite : Forall (fun r => finite (Value r)) df.
Proof. each_row ltac:(exact I). Qed.

Lemma latest_in_df (company metric : string) (v : float) :
  latest company metric = Some v ->
  exists r, In r df /\ Company r = company /\ Metric r = metric
            /\ Value r = v.
Proof.
  unfold latest.
  destruct (kpi_latest_spec df company metric)
    as [[_ ->]|[r [Hin [_ [_ ->]]]]]; [discriminate|].
  intros H. inversion H; subst. apply select_in in Hin. exists r. tauto.
Qed.

(** Rounding to the nearest integer: the result is at most a half away from
    the quotient, and the even neighbour at a tie. *)
Lemma div_half_even_nearest (num den : Z) :
  0 < den ->
  Z.abs (2 * num - 2 * den * div_half_even num den) <= den
  /\ (2 * (num mod den) = den -> Z.even (div_half_even num den) = true).
Proof.
  intros Hden. unfold div_half_even.
  pose proof (Z.div_mod num den) as Hdm.
  pose proof (Z.mod_pos_bound num den Hden) as Hr.
  assert (num = den * (num / den) + num mod den) as E by (apply Hdm; lia).
  clear Hdm. set (q := num / den) in *. set (r := num mod den) in *.
  destruct (Z.compare_spec (2 * r) den) as [Heq|Hlt|Hgt].
  - destruct (Z.even q) eqn:Ev.
    + split; [nia | intros _; exact Ev].
    + split; [nia|]. intros _. rewrite Z.even_add, Ev. reflexivity.
  - split; [nia | lia].
  - split; [nia | lia].
Qed.

(** C6: for every company selection [update_kpis] raises nothing and builds
    six cards, one per metric of the fixed list (Trade Receivable Turnover is
    not in it), in that order, each a box with the metric's name and, with
    "Both", Dixon's and Honeywell's latest values side by side under their
    names, otherwise the selected company's latest value alone; a value is
    printed with exactly two decimals, rounded to the nearest hundredth
    (Gross Profit Margin: 3.25 and 12.65), and a missing one as a dash.  The
    cards of "Both", "Dixon", "Honeywell" and of any other selection are
    given in full. *)
Theorem C6_update_kpis (company : string) :
  kpis = ["Current Ratio"; "Quick Ratio"; "Gross Profit Margin";
          "Net Profit Margin"; "Inventory Turnover"; "Asset Turnover"]
  /\ ~ In "Trade Receivable Turnover" kpis
  /\ (exists cards,
        update_kpis company = Ok cards
        /\ List.length cards = 6%nat
        /\ cards
           = map (fun metric =>
                    if String.eqb company "Both" then
                      Div [both_body metric (latest "Dixon" metric)
                             (latest "Honeywell" metric)]
                    else Div [single_body metric (latest company metric)])
                 kpis
        /\ cards
           = map (fun metric =>
                    let shown c :=
                      match latest c metric with
                      | Some v => format_2f v
                      | None => "—"
                      end in
                    if String.eqb company "Both" then
                      Div [Div [Div [Str metric];
                                Div [Div [Div [Str "Dixon"];
                                          Div [Str (shown "Dixon")]];
                                     Div [Div [Str "Honeywell"];
                                          Div [Str (shown "Honeywell")]]]]]
                    else
                      Div [Div [Div [Str metric];
                                Div [Str (shown company)]]])
                 ["Current Ratio"; "Quick Ratio"; "Gross Profit Margin";
                  "Net Profit Margin"; "Inventory Turnover";
                  "Asset Turnover"])
  /\ (forall c metric, kpi_latest df c metric = Ok (latest c metric))
  /\ (forall c metric v,
        latest c metric = Some v ->
        kpi_text (latest c metric) = format_2f v
        /\ two_decimals (format_2f v))
  /\ (forall c metric,
        latest c metric = None -> kpi_text (latest c metric) = "—")
  /\ (forall c metric,
        In c companies -> In metric kpis ->
        exists v, latest c metric = Some v)
  /\ (forall c metric, ~ In c companies -> latest c metric = None)
  /\ nth_error
       (map (fun metric =>
               Div [both_body metric (latest "Dixon" metric)
                      (latest "Honeywell" metric)])
            kpis) 2
     = Some (Div [Div [Div [Str "Gross Profit Margin"];
                       Div [Div [Div [Str "Dixon"]; Div [Str "3.25"]];
                            Div [Div [Str "Honeywell"];
                                 Div [Str "12.65"]]]]])
  /\ update_kpis "Both"
     = Ok [ Div [Div [Div [Str "Current Ratio"];
                      Div [Div [Div [Str "Dixon"]; Div [Str "1.33"]];
                           Div [Div [Str "Honeywell"]; Div [Str "3.45"]]]]];
            Div [Div [Div [Str "Quick Ratio"];
                      Div [Div [Div [Str "Dixon"]; Div [Str "1.01"]];
                           Div [Div [Str "Honeywell"]; Div [Str "3.24"]]]]];
            Div [Div [Div [Str "Gross Profit Margin"];
                      Div [Div [Div [Str "Dixon"]; Div [Str "3.25"]];
                           Div [Div [Str "Honeywell"]; Div [Str "12.65"]]]]];
            Div [Div [Div [Str "Net Profit Margin"];
                      Div [Div [Div [Str "Dixon"]; Div [Str "2.82"]];
                           Div [Div [Str "Honeywell"]; Div [Str "12.49"]]]]];
            Div [Div [Div [Str "Inventory Turnover"];
                      Div [Div [Div [Str "Dixon"]; Div [Str "12.69"]];
                           Div [Div [Str "Honeywell"]; Div [Str "17.66"]]]]];
            Div [Div [Div [Str "Asset Turnover"];
                      Div [Div [Div [Str "Dixon"]; Div [Str "2.30"]];
                           Div [Div [Str "Honeywell"]; Div [Str "1.10"]]]]] ]
  /\ update_kpis "Dixon"
     = Ok [ Div [Div [Div [Str "Current Ratio"]; Div [Str "1.33"]]];
            Div [Div [Div [Str "Quick Ratio"]; Div [Str "1.01"]]];
            Div [Div [Div [Str "Gross Profit Margin"]; Div [Str "3.25"]]];
            Div [Div [Div [Str "Net Profit Margin"]; Div [Str "2.82"]]];
            Div [Div [Div [Str "Inventory Turnover"]; Div [Str "12.69"]]];
            Div [Div [Div [Str "Asset Turnover"]; Div [Str "2.30"]]] ]
  /\ update_kpis "Honeywell"
     = Ok [ Div [Div [Div [Str "Current Ratio"]; Div [Str "3.45"]]];
            Div [Div [Div [Str "Quick Ratio"]; Div [Str "3.24"]]];
            Div [Div [Div [Str "Gross Profit Margin"]; Div [Str "12.65"]]];
            Div [Div [Div [Str "Net Profit Margin"]; Div [Str "12.49"]]];
            Div [Div [Div [Str "Inventory Turnover"]; Div [Str "17.66"]]];
            Div [Div [Div [Str "Asset Turnover"]; Div [Str "1.10"]]] ]
  /\ (company <> "Both" -> ~ In company companies ->
      update_kpis company
      = Ok [ Div [Div [Div [Str "Current Ratio"]; Div [Str "—"]]];
            Div [Div [Div [Str "Quick Ratio"]; Div [Str "—"]]];
            Div [Div [Div [Str "Gross Profit Margin"]; Div [Str "—"]]];
            Div [Div [Div [Str "Net Profit Margin"]; Div [Str "—"]]];
            Div [Div [Div [Str "Inventory Turnover"]; Div [Str "—"]]];
            Div [Div [Div [Str "Asset Turnover"]; Div [Str "—"]]] ])
  /\ (forall v s m e,
        Prim2SF v = S754_finite s m e ->
        let n :=
          if Z.leb 0 e then Z.pos m * 2 ^ e * 100
          else div_half_even (Z.pos m * 100) (2 ^ (- e)) in
        format_2f v
        = ((if s then "-" else "") ++ decimal (n / 100) ++ "."
           ++ (if Z.ltb (n mod 100) 10 then "0" else "")
           ++ decimal (n mod 100))%string)
  /\ (forall num den,
        0 < den ->
        Z.abs (2 * num - 2 * den * div_half_even num den) <= den
        /\ (2 * (num mod den) = den ->
            Z.even (div_half_even num den) = true))
  /\ decimal 0 = "0" /\ decimal 7 = "7" /\ decimal 1205 = "1205".
Proof.
  split; [reflexivity|].
  split; [simpl; intuition discriminate|].
  split.
  { destruct (String.eqb_spec company "Both") as [->|Hne].
    - eexists. split; [apply update_kpis_both|].
      split; [reflexivity|]. split; reflexivity.
    - eexists. split; [now apply update_kpis_single|].
      split; [reflexivity|]. split; reflexivity. }
  split; [exact kpi_latest_latest|].
  split.
  { intros c metric v H. rewrite H. split; [reflexivity|].
    apply format_2f_two_decimals.
    destruct (latest_in_df _ _ _ H) as [r [Hin [_ [_ <-]]]].
    pose proof df_values_finite as F. rewrite Forall_forall in F. auto. }
  split; [intros c metric ->; reflexivity|].
  split.
  { intros c metric Hc Hm. simpl in Hc, Hm.
    repeat (destruct Hc as [<-|Hc]; [|]); try contradiction;
      repeat (destruct Hm as [<-|Hm]; [|]); try contradiction;
      eexists; vm_compute; reflexivity. }
  split; [intros c metric H; now apply latest_unknown_company|].
  split; [vm_compute; reflexivity|].
  split; [vm_compute; reflexivity|].
  split; [vm_compute; reflexivity|].
  split; [vm_compute; reflexivity|].
  split.
  { intros Hb Hc. rewrite (update_kpis_single company Hb).
    unfold kpis, single_body. cbn [map].
    rewrite !(latest_unknown_company company _ Hc). reflexivity. }
  split.
  { intros v s m e H. cbv zeta. unfold format_2f. rewrite H. reflexivity. }
  split; [exact div_half_even_nearest|].
  repeat split.
Qed.

Lemma C6_update_kpis_witness :
  update_kpis "Acme"
  = Ok [ Div [Div [Div [Str "Current Ratio"]; Div [Str "—"]]];
            Div [Div [Div [Str "Quick Ratio"]; Div [Str "—"]]];
            Div [Div [Div [Str "Gross Profit Margin"]; Div [Str "—"]]];
            Div [Div [Div [Str "Net Profit Margin"]; Div [Str "—"]]];
            Div [Div [Div [Str "Inventory Turnover"]; Div [Str "—"]]];
            Div [Div [Div [Str "Asset Turnover"]; Div [Str "—"]]] ]
  /\ two_decimals (format_2f 1.10%float)
  /\ Z.abs (2 * 7 - 2 * 2 * div_half_even 7 2) <= 2.
Proof.
  split; [|split].
  - apply (proj1 (proj2 (proj2 (proj2 (proj2 (proj2 (proj2 (proj2
             (proj2 (proj2 (proj2 (proj2 (proj2
                (C6_update_kpis "Acme")))))))))))))).
    + discriminate.
    + simpl. intuition discriminate.
  - apply (proj1 (proj2 (proj2 (proj2 (proj2 (C6_update_kpis "Both")))))
             "Honeywell" "Asset Turnover" 1.10%float).
    vm_compute. reflexivity.
  - apply (proj1 (proj2 (proj2 (proj2 (proj2 (proj2 (proj2 (proj2
             (proj2 (proj2 (proj2 (proj2 (proj2 (proj2 (proj2
                (C6_update_kpis "Acme")))))))))))))))).
    reflexivity.
Defined.

(** C5: the KPI cards are computed from the company selection alone: two
    control states with the same company have the same cards, whatever their
    metric groups and year ranges, and the values shown are the latest of the
    whole of [df]. *)
Theorem C5_kpi_cards_depend_on_company_only
    (company group group' : string) (year_range year_range' : list Z) :
  kpi_cards (mkControlState company group year_range)
  = kpi_cards (mkControlState company group' year_range')
  /\ kpi_cards (mkControlState company group year_range)
     = update_kpis company
  /\ (forall c metric, kpi_latest df c metric = Ok (latest c metric))
  /\ exists cards,
       update_kpis company = Ok cards
       /\ cards
          = map (fun metric =>
                   if String.eqb company "Both" then
                     Div [both_body metric (latest "Dixon" metric)
                            (latest "Honeywell" metric)]
                   else Div [single_body metric (latest company metric)])
                kpis.
Proof.
  split; [reflexivity|]. split; [reflexivity|].
  split; [exact kpi_latest_latest|].
  destruct (String.eqb_spec company "Both") as [->|Hne].
  - eexists. split; [apply update_kpis_both | reflexivity].
  - eexists. split; [now apply update_kpis_single | reflexivity].
Qed.

(** ** The figures of [update_charts] *)

Lemma fold_add_trace {A : Type} (g : A -> trace) (xs : list A) (fig : figure) :
  fold_left (fun fig x => add_trace fig (g x)) xs fig
  = mkFigure (data fig ++ map g xs) (layout fig).
Proof.
  revert fig. induction xs as [|x xs IH]; intros fig; simpl.
  - rewrite app_nil_r. now destruct fig.
  - rewrite IH. simpl. now rewrite <- app_assoc.
Qed.

Lemma fold_fold_add_trace {A B : Type} (g : A -> B -> trace) (xs : list A)
    (ys : list B) (fig : figure) :
  fold_left
    (fun fig x => fold_left (fun fig y => add_trace fig (g x y)) ys fig)
    xs fig
  = mkFigure (data fig ++ flat_map (fun x => map (g x) ys) xs) (layout fig).
Proof.
  revert fig. induction xs as [|x xs IH]; intros fig; simpl.
  - rewrite app_nil_r. now destruct fig.
  - rewrite fold_add_trace, IH. simpl. now rewrite <- app_assoc.
Qed.

Lemma main_chart_data (dff : list row) (company group : string)
    (metrics : list string) :
  data (main_chart dff company group metrics)
  = main_series dff company metrics.
Proof.
  unfold main_chart, main_series.
  destruct (String.eqb company "Both"); unfold update_layout; cbn [data].
  - now rewrite (fold_fold_add_trace
                   (fun metric comp =>
                      bar_trace (series_for dff comp metric)
                        (comp ++ " — " ++ metric)%string)).
  - now rewrite (fold_add_trace
                   (fun metric =>
                      bar_trace (series_for dff company metric) metric)).
Qed.

Lemma spark_chart_data (dff : list row) (company primary : string) :
  data (spark_chart dff company primary) = spark_series dff company primary.
Proof.
  unfold spark_chart, spark_series.
  destruct (String.eqb company "Both"); reflexivity.
Qed.

Lemma spark_chart_title (dff : list row) (company primary : string) :
  dict_getitem (layout (spark_chart dff company primary)) "title"
  = Ok (PStr ("Trend — " ++ primary)%string).
Proof.
  unfold spark_chart. destruct (String.eqb company "Both"); reflexivity.
Qed.

(** With a key of [metric_groups] and a two-element year range the callback
    returns its three outputs. *)
Lemma update_charts_ok (company group : string) (metrics : list string)
    (yr_min yr_max : Z) :
  dict_getitem metric_groups group = Ok metrics ->
  exists primary,
    list_getitem metrics 0 = Ok primary
    /\ update_charts company group [yr_min; yr_max]
       = Ok (main_chart (filter_by_group_and_range df metrics yr_min yr_max)
               company group metrics,
             spark_chart (filter_by_group_and_range df metrics yr_min yr_max)
               company primary,
             table_round 3
               (pivot_table
                  (filter_by_group_and_range df metrics yr_min yr_max))).
Proof.
  intros H. unfold update_charts. cbn [unpack2 bind]. rewrite H. cbn [bind].
  destruct (metric_groups_inv _ _ H) as [[_ ->]|[[_ ->]|[_ ->]]];
    eexists; split; reflexivity.
Qed.

Lemma filter_nothing {A : Type} (f : A -> bool) (l : list A) :
  (forall a, In a l -> f a = false) -> filter f l = [].
Proof.
  induction l as [|a l IH]; intros H; simpl; [reflexivity|].
  rewrite (H a (or_introl eq_refl)). apply IH. intros; apply H; now right.
Qed.

Lemma filter_empty_range (frame : list row) (metrics : list string)
    (yr_min yr_max : Z) :
  yr_max < yr_min -> filter_by_group_and_range frame metrics yr_min yr_max = [].
Proof.
  intros H. apply filter_nothing. intros r _.
  destruct (Z.leb_spec yr_min (Year r)), (Z.leb_spec (Year r) yr_max);
    rewrite ?andb_false_r; try reflexivity; lia.
Qed.

Lemma series_for_unknown_company (dff : list row) (company metric : string) :
  (forall r, In r dff -> Company r <> company) ->
  series_for dff company metric = [].
Proof.
  intros H. unfold series_for, select. rewrite filter_nothing; [reflexivity|].
  intros r Hin. destruct (String.eqb_spec (Company r) company); [|reflexivity].
  now apply H in Hin.
Qed.

Lemma series_for_unknown_metric (dff : list row) (company metric : string) :
  (forall r, In r dff -> Metric r <> metric) ->
  series_for dff company metric = [].
Proof.
  intros H. unfold series_for, select. rewrite filter_nothing; [reflexivity|].
  intros r Hin. destruct (String.eqb_spec (Metric r) metric);
    [now apply H in Hin | apply andb_false_r].
Qed.

Lemma main_series_empty (dff : list row) (company : string)
    (metrics : list string) :
  (forall comp metric,
     (company = "Both" -> In comp companies) ->
     (company <> "Both" -> comp = company) ->
     series_for dff comp metric = []) ->
  Forall empty_series (main_series dff company metrics).
Proof.
  intros H. unfold main_series. apply Forall_forall. intros t.
  destruct (String.eqb_spec company "Both") as [E|E].
  - rewrite in_flat_map. intros [metric [_ Hin]].
    apply in_map_iff in Hin as [comp [<- Hc]].
    rewrite H by tauto. now split.
  - rewrite in_map_iff. intros [metric [<- _]].
    rewrite H by tauto. now split.
Qed.

Lemma spark_series_empty (dff : list row) (company primary : string) :
  (forall comp,
     (company = "Both" -> In comp companies) ->
     (company <> "Both" -> comp = company) ->
     series_for dff comp primary = []) ->
  Forall empty_series (spark_series dff company primary).
Proof.
  intros H. unfold spark_series. apply Forall_forall. intros t.
  destruct (String.eqb_spec company "Both") as [E|E].
  - rewrite in_map_iff. intros [comp [<- Hc]].
    rewrite H by tauto. now split.
  - intros [<-|[]]. rewrite H by tauto. now split.
Qed.

(** C7: with a key of [metric_groups] and a year range whose minimum exceeds
    its maximum, [update_charts] raises nothing; the main chart has its
    usual series, one per metric of the group (and per company with "Both"),
    each without a point, the sparkline's series are without a point too, and
    the table has no row. *)
Theorem C7_empty_year_range (company group : string) (metrics : list string)
    (yr_min yr_max : Z) :
  dict_getitem metric_groups group = Ok metrics ->
  yr_max < yr_min ->
  exists fig spark tbl,
    update_charts company group [yr_min; yr_max] = Ok (fig, spark, tbl)
    /\ Forall empty_series (data fig)
    /\ List.length (data fig)
       = (List.length metrics * if String.eqb company "Both" then 2 else 1)%nat
    /\ Forall empty_series (data spark)
    /\ index tbl = [] /\ columns tbl = [] /\ cells tbl = [].
Proof.
  intros Hg Hr.
  destruct (update_charts_ok company group metrics yr_min yr_max Hg)
    as [primary [_ ->]].
  rewrite (filter_empty_range df metrics yr_min yr_max Hr).
  do 3 eexists. split; [reflexivity|].
  rewrite main_chart_data, spark_chart_data.
  split; [apply main_series_empty; reflexivity|].
  split.
  { unfold main_series.
    destruct (metric_groups_inv _ _ Hg) as [[_ ->]|[[_ ->]|[_ ->]]];
      destruct (String.eqb company "Both"); reflexivity. }
  split; [apply spark_series_empty; reflexivity|].
  repeat split.
Qed.

Lemma C7_empty_year_range_witness :
  exists fig spark tbl,
    update_charts "Both" "profitability" [2024; 2022] = Ok (fig, spark, tbl)
    /\ Forall empty_series (data fig)
    /\ List.length (data fig) = 4%nat
    /\ Forall empty_series (data spark)
    /\ index tbl = [] /\ columns tbl = [] /\ cells tbl = [].
Proof.
  apply (C7_empty_year_range "Both" "profitability"
           ["Gross Profit Margin"; "Net Profit Margin"] 2024 2022).
  - reflexivity.
  - lia.
Defined.

(** C8: with a key of [metric_groups], the sparkline is drawn from the first
    metric of the group's list (Current Ratio, Gross Profit Margin and
    Inventory Turnover for liquidity, profitability and turnover): one series
    per company with "Both", else the selected company's; the main chart's
    series are named "<Company> — <Metric>" with "Both" and "<Metric>"
    otherwise. *)
Theorem C8_sparkline_and_names (company group : string)
    (metrics : list string) (yr_min yr_max : Z) :
  dict_getitem metric_groups group = Ok metrics ->
  exists primary rest fig spark tbl,
    metrics = primary :: rest
    /\ (group = "liquidity" -> primary = "Current Ratio")
    /\ (group = "profitability" -> primary = "Gross Profit Margin")
    /\ (group = "turnover" -> primary = "Inventory Turnover")
    /\ update_charts company group [yr_min; yr_max] = Ok (fig, spark, tbl)
    /\ data spark
       = (let dff := filter_by_group_and_range df metrics yr_min yr_max in
          if String.eqb company "Both" then
            [ scatter_trace (series_for dff "Dixon" primary) "Dixon";
              scatter_trace (series_for dff "Honeywell" primary) "Honeywell" ]
          else [ scatter_trace (series_for dff company primary) company ])
    /\ dict_getitem (layout spark) "title"
       = Ok (PStr ("Trend — " ++ primary)%string)
    /\ map trace_name (data fig)
       = (if String.eqb company "Both" then
            flat_map
              (fun metric =>
                 [ ("Dixon" ++ " — " ++ metric)%string;
                   ("Honeywell" ++ " — " ++ metric)%string ])
              metrics
          else metrics).
Proof.
  intros Hg.
  destruct (update_charts_ok company group metrics yr_min yr_max Hg)
    as [primary [Hp ->]].
  assert (exists rest, metrics = primary :: rest) as [rest Hm].
  { destruct metrics as [|m rest]; [discriminate|].
    inversion Hp. eauto. }
  exists primary, rest. do 3 eexists.
  split; [exact Hm|].
  assert (map trace_name
            (main_series (filter_by_group_and_range df metrics yr_min yr_max)
               company metrics)
          = if String.eqb company "Both" then
              flat_map
                (fun metric =>
                   [ ("Dixon" ++ " — " ++ metric)%string;
                     ("Honeywell" ++ " — " ++ metric)%string ])
                metrics
            else metrics) as Hnames.
  { unfold main_series. generalize (filter_by_group_and_range df metrics
                                      yr_min yr_max) as dff.
    intros dff. clear. destruct (String.eqb company "Both").
    - induction metrics as [|m ms IH]; [reflexivity|].
      simpl. simpl in IH. now rewrite IH.
    - rewrite map_map. cbn [trace_name bar_trace]. apply map_id. }
  destruct (metric_groups_inv _ _ Hg) as [[-> E]|[[-> E]|[-> E]]];
    rewrite E in Hm; inversion Hm; subst primary rest;
    (split; [intros; easy|]); (split; [intros; easy|]);
    (split; [intros; easy|]);
    (split; [reflexivity|]);
    (split; [rewrite spark_chart_data; reflexivity|]);
    (split; [apply spark_chart_title|]);
    rewrite main_chart_data; exact Hnames.
Qed.

Lemma C8_sparkline_and_names_witness :
  exists primary rest fig spark tbl,
    ["Inventory Turnover"; "Asset Turnover"; "Trade Receivable Turnover"]
    = primary :: rest
    /\ ("turnover" = "liquidity" -> primary = "Current Ratio")
    /\ ("turnover" = "profitability" -> primary = "Gross Profit Margin")
    /\ ("turnover" = "turnover" -> primary = "Inventory Turnover")
    /\ update_charts "Dixon" "turnover" [2023; 2024] = Ok (fig, spark, tbl)
    /\ data spark
       = [ Scatter ["Mar-23"; "Mar-24"] [10.42333314; 12.16973252]%float
             "lines+markers" "Dixon" ]
    /\ dict_getitem (layout spark) "title"
       = Ok (PStr "Trend — Inventory Turnover")
    /\ map trace_name (data fig)
       = ["Inventory Turnover"; "Asset Turnover"; "Trade Receivable Turnover"].
Proof.
  destruct (C8_sparkline_and_names "Dixon" "turnover"
              ["Inventory Turnover"; "Asset Turnover";
               "Trade Receivable Turnover"] 2023 2024 eq_refl)
    as [primary [rest [fig [spark [tbl H]]]]].
  exists primary, rest, fig, spark, tbl.
  destruct H as [H1 [H2 [H3 [H4 [H5 [H6 [H7 H8]]]]]]].
  split; [exact H1|]. split; [exact H2|]. split; [exact H3|].
  split; [exact H4|]. split; [exact H5|].
  rewrite (H4 eq_refl) in H6, H7.
  split; [|split; [exact H7 | exact H8]].
  rewrite H6. vm_compute. reflexivity.
Defined.

(** ** Selections outside the controls' domains *)

Lemma kpi_latest_absent (frame : list row) (company metric : string) :
  (forall r, In r frame -> ~ (Company r = company /\ Metric r = metric)) ->
  kpi_latest frame company metric = Ok None.
Proof.
  intros H.
  destruct (kpi_latest_spec frame company metric)
    as [[_ Hk]|[r [Hin _]]]; [exact Hk|].
  apply select_in in Hin as [Hf [Hc Hm]]. exfalso. eapply H; eauto.
Qed.

(** C1, as the code has it: [metric_groups[group]] is a plain subscript, so
    a group key other than liquidity, profitability and turnover makes
    [update_charts] raise KeyError. *)
Lemma C1_invalid_group_raises :
  "bogus" <> "liquidity" /\ "bogus" <> "profitability"
  /\ "bogus" <> "turnover"
  /\ update_charts "Both" "bogus" [2021; 2025] = Raise KeyError
  /\ forall out, update_charts "Both" "bogus" [2021; 2025] <> Ok out.
Proof.
  repeat (split; [discriminate|]).
  split; [reflexivity | discriminate].
Qed.

(** C1, amended: a company or a metric that the dataset does not have gives
    empty results and no error ([kpi_latest] returns None; with a key of
    [metric_groups], every series of [update_charts] is without a point); a
    group key other than liquidity, profitability and turnover makes
    [update_charts] raise KeyError. *)
Theorem C1_invalid_selection (company group : string) (yr_min yr_max : Z) :
  (group <> "liquidity" -> group <> "profitability" -> group <> "turnover" ->
   update_charts company group [yr_min; yr_max] = Raise KeyError)
  /\ (forall metric,
        (forall r, In r df -> ~ (Company r = company /\ Metric r = metric)) ->
        kpi_latest df company metric = Ok None)
  /\ (forall metric,
        (forall r, In r df -> Metric r <> metric) ->
        forall metrics,
          series_for (filter_by_group_and_range df metrics yr_min yr_max)
            company metric = [])
  /\ (forall metrics,
        dict_getitem metric_groups group = Ok metrics ->
        company <> "Both" -> ~ In company companies ->
        exists fig spark tbl,
          update_charts company group [yr_min; yr_max] = Ok (fig, spark, tbl)
          /\ Forall empty_series (data fig)
          /\ Forall empty_series (data spark)).
Proof.
  split; [|split; [|split]].
  - intros H1 H2 H3. unfold update_charts. cbn [unpack2 bind].
    now rewrite metric_groups_unknown.
  - intros metric. apply kpi_latest_absent.
  - intros metric H metrics. apply series_for_unknown_metric.
    intros r Hin. apply filter_by_group_and_range_in in Hin. now apply H.
  - intros metrics Hg Hb Hc.
    destruct (update_charts_ok company group metrics yr_min yr_max Hg)
      as [primary [_ ->]].
    do 3 eexists. split; [reflexivity|].
    rewrite main_chart_data, spark_chart_data.
    assert (forall comp metric,
              (company = "Both" -> In comp companies) ->
              (company <> "Both" -> comp = company) ->
              series_for (filter_by_group_and_range df metrics yr_min yr_max)
                comp metric = []) as E.
    { intros comp metric _ Hcomp. rewrite (Hcomp Hb).
      apply series_for_unknown_company. intros r Hin.
      apply filter_by_group_and_range_in in Hin as [Hdf _].
      apply df_companies in Hdf. congruence. }
    split; [apply main_series_empty | apply spark_series_empty]; auto.
Qed.

Lemma C1_invalid_selection_witness :
  update_charts "Acme" "bogus" [2021; 2025] = Raise KeyError
  /\ kpi_latest df "Acme" "Quick Ratio" = Ok None
  /\ exists fig spark tbl,
       update_charts "Acme" "liquidity" [2021; 2025] = Ok (fig, spark, tbl)
       /\ Forall empty_series (data fig)
       /\ Forall empty_series (data spark).
Proof.
  split; [|split].
  - apply (proj1 (C1_invalid_selection "Acme" "bogus" 2021 2025));
      discriminate.
  - apply (proj1 (proj2 (C1_invalid_selection "Acme" "bogus" 2021 2025))).
    intros r Hin [Hc _]. apply df_companies in Hin. rewrite Hc in Hin.
    simpl in Hin. intuition discriminate.
  - apply (proj2 (proj2 (proj2
             (C1_invalid_selection "Acme" "liquidity" 2021 2025)))
             ["Current Ratio"; "Quick Ratio"]).
    + reflexivity.
    + discriminate.
    + simpl. intuition discriminate.
Defined.

(** ** The pivoted table *)

Lemma insert_unique_in {A : Type} (cmp : A -> A -> comparison)
    (cmp_eq : forall a b, cmp a b = Eq -> a = b) (a x : A) (l : list A) :
  In x (insert_unique cmp a l) <-> x = a \/ In x l.
Proof.
  induction l as [|b l IH]; simpl.
  - intuition.
  - destruct (cmp a b) eqn:E; simpl.
    + apply cmp_eq in E. subst b. intuition.
    + intuition.
    + rewrite IH. intuition.
Qed.

Lemma sorted_unique_in {A : Type} (cmp : A -> A -> comparison)
    (cmp_eq : forall a b, cmp a b = Eq -> a = b) (x : A) (l : list A) :
  In x (sorted_unique cmp l) <-> In x l.
Proof.
  unfold sorted_unique. induction l as [|a l IH]; simpl; [tauto|].
  rewrite insert_unique_in by exact cmp_eq. rewrite IH. intuition.
Qed.

Lemma column_compare_eq (a b : column) : column_compare a b = Eq -> a = b.
Proof.
  destruct a as [c m], b as [c' m']. unfold column_compare. simpl.
  destruct (String.compare c c') eqn:E; try discriminate.
  intros H. apply String.compare_eq_iff in E, H. congruence.
Qed.

Lemma position_none {A : Type} (eqb : A -> A -> bool)
    (eqb_refl : forall a, eqb a a = true) (a : A) (l : list A) :
  position eqb a l = None -> ~ In a l.
Proof.
  intros H Hin.
  destruct (position_complete eqb eqb_refl a l Hin) as [i E]. congruence.
Qed.

Lemma in_group_key (label : string) (col : column) (r : row) :
  in_group label col r = true <-> group_key r = (label, col).
Proof.
  unfold in_group, group_key. destruct col as [c m]. simpl.
  rewrite !andb_true_iff, !String.eqb_eq. split.
  - intros [[-> ->] ->]. reflexivity.
  - intros H. inversion H. auto.
Qed.

Lemma group_values_filter (frame : list row) (label : string) (col : column) :
  group_values frame label col = map Value (filter (in_group label col) frame).
Proof. reflexivity. Qed.

(** A cell of the pivot is the aggregate of its group, missing when the group
    is empty. *)
Lemma table_cell_pivot (aggfunc : list float -> float) (frame : list row)
    (label : string) (col : column) :
  table_cell (pivot_with aggfunc frame) label col
  = match group_values frame label col with
    | [] => None
    | vs => Some (aggfunc vs)
    end.
Proof.
  unfold table_cell, pivot_with. cbn [index columns cells].
  set (labels := sorted_unique String.compare (map YearLabel frame)).
  set (cols := sorted_unique column_compare
                 (map (fun r => (Company r, Metric r)) frame)).
  assert (forall r, In r frame -> in_group label col r = true ->
                    In label labels /\ In col cols) as Hpresent.
  { intros r Hin Hg. apply in_group_key in Hg. inversion Hg. split.
    - apply sorted_unique_in; [exact String.compare_eq_iff|].
      now apply in_map.
    - apply sorted_unique_in; [exact column_compare_eq|].
      apply (in_map (fun r => (Company r, Metric r))) in Hin.
      now destruct col.  }
  assert ((~ In label labels \/ ~ In col cols) ->
          group_values frame label col = []) as Habsent.
  { intros H. rewrite group_values_filter, filter_nothing; [reflexivity|].
    intros r Hin. destruct (in_group label col r) eqn:E; [|reflexivity].
    destruct (Hpresent r Hin E). tauto. }
  destruct (position String.eqb label labels) as [i|] eqn:Ei.
  - destruct (position column_eqb col cols) as [j|] eqn:Ej.
    + apply (position_sound String.eqb string_eqb_sound) in Ei.
      apply (position_sound column_eqb column_eqb_sound) in Ej.
      erewrite (nth_error_nth _ i []);
        [|apply map_nth_error; exact Ei].
      erewrite (nth_error_nth _ j None);
        [|apply map_nth_error; exact Ej].
      reflexivity.
    + apply (position_none column_eqb column_eqb_refl) in Ej.
      now rewrite Habsent by tauto.
  - apply (position_none String.eqb String.eqb_refl) in Ei.
    now rewrite Habsent by tauto.
Qed.

(** In a frame with at most one row per group, the group of a row is that
    row alone. *)
Lemma unique_group (frame : list row) (r : row) :
  NoDup (map group_key frame) -> In r frame ->
  filter (in_group (YearLabel r) (Company r, Metric r)) frame = [r].
Proof.
  induction frame as [|a frame IH]; intros Hnd Hin; [contradiction|].
  simpl in Hnd. apply NoDup_cons_iff in Hnd as [Hna Hnd]. simpl.
  destruct (in_group (YearLabel r) (Company r, Metric r) a) eqn:E.
  - apply in_group_key in E.
    destruct Hin as [->|Hin].
    + f_equal. apply filter_nothing. intros r' Hin'.
      destruct (in_group (YearLabel r) (Company r, Metric r) r') eqn:E';
        [|reflexivity].
      apply in_group_key in E'. exfalso. apply Hna.
      rewrite E, <- E'. now apply in_map.
    + exfalso. apply Hna. rewrite E.
      now apply (in_map group_key) in Hin.
  - destruct Hin as [->|Hin]; [|now apply IH].
    assert (in_group (YearLabel r) (Company r, Metric r) r = true) as T
      by now apply in_group_key.
    congruence.
Qed.

Lemma group_values_unique (frame : list row) (label : string) (col : column) :
  NoDup (map group_key frame) ->
  group_values frame label col = []
  \/ exists r,
       In r frame /\ group_key r = (label, col)
       /\ group_values frame label col = [Value r]
       /\ (forall r', In r' frame -> group_key r' = (label, col) -> r' = r).
Proof.
  intros Hnd. rewrite group_values_filter.
  destruct (filter (in_group label col) frame) as [|r0 rest] eqn:E;
    [now left|].
  right. exists r0.
  assert (In r0 (filter (in_group label col) frame)) as Hin0
    by (rewrite E; now left).
  apply filter_In in Hin0 as [Hin0 Hk0]. apply in_group_key in Hk0.
  assert (filter (in_group label col) frame = [r0]) as E1.
  { pose proof (unique_group frame r0 Hnd Hin0) as U.
    unfold group_key in Hk0. inversion Hk0; subst label col. exact U. }
  split; [exact Hin0|]. split; [exact Hk0|].
  split; [rewrite <- E, E1; reflexivity|].
  intros r' Hin' Hk'.
  assert (In r' (filter (in_group label col) frame)) as H
    by (apply filter_In; split; [exact Hin' | now apply in_group_key]).
  rewrite E1 in H. destruct H as [H|[]]. now symmetry.
Qed.

Lemma NoDup_map_filter {A B : Type} (key : A -> B) (f : A -> bool)
    (l : list A) :
  NoDup (map key l) -> NoDup (map key (filter f l)).
Proof.
  induction l as [|a l IH]; simpl; intros H; [constructor|].
  apply NoDup_cons_iff in H as [Hna Hnd].
  destruct (f a); simpl; [|auto].
  constructor; [|auto].
  intros Hin. apply Hna. apply in_map_iff in Hin as [x [Hx Hin]].
  apply filter_In in Hin as [Hin _]. rewrite <- Hx. now apply in_map.
Qed.

Lemma group_key_eqb_refl a : group_key_eqb a a = true.
Proof.
  unfold group_key_eqb. now rewrite String.eqb_refl, column_eqb_refl.
Qed.

Lemma df_groups_unique : NoDup (map group_key df).
Proof.
  apply (nodupb_sound group_key_eqb group_key_eqb_refl).
  vm_compute. reflexivity.
Qed.

Lemma df_mean_of_one : Forall (fun r => mean [Value r] = Value r) df.
Proof. each_row ltac:(reflexivity). Qed.

(** C4: pivoting the rows filtered for the liquidity group and 2021..2025
    gives a table indexed by the five year labels with one column per
    (company, metric) pair of those rows; its cell at "Mar-23" and
    (Dixon, Quick Ratio) is 1.27, also after the rounding to three decimals
    that [update_charts] applies; and in the pivot of any frame a cell is
    missing, not zero, exactly when no row has its label, company and
    metric. *)
Theorem C4_pivot_table (frame : list row) (label : string) (col : column) :
  (exists liquidity,
     dict_getitem metric_groups "liquidity" = Ok liquidity
     /\ let t := pivot_table (filter_by_group_and_range df liquidity 2021 2025)
        in
        index t = ["Mar-21"; "Mar-22"; "Mar-23"; "Mar-24"; "Mar-25"]
        /\ columns t
           = [ ("Dixon", "Current Ratio"); ("Dixon", "Quick Ratio");
               ("Honeywell", "Current Ratio"); ("Honeywell", "Quick Ratio") ]
        /\ table_cell t "Mar-23" ("Dixon", "Quick Ratio") = Some 1.27%float)
  /\ (exists fig spark tbl,
        update_charts "Both" "liquidity" [2021; 2025] = Ok (fig, spark, tbl)
        /\ table_cell tbl "Mar-23" ("Dixon", "Quick Ratio") = Some 1.27%float)
  /\ (In label (index (pivot_table frame))
      <-> exists r, In r frame /\ YearLabel r = label)
  /\ (In col (columns (pivot_table frame))
      <-> exists r, In r frame /\ (Company r, Metric r) = col)
  /\ (table_cell (pivot_table frame) label col = None
      <-> forall r, In r frame -> group_key r <> (label, col)).
Proof.
  split.
  { eexists. split; [reflexivity|]. cbv zeta.
    repeat split; vm_compute; reflexivity. }
  split.
  { do 3 eexists. split; vm_compute; reflexivity. }
  split.
  { unfold pivot_table, pivot_with. cbn [index].
    rewrite sorted_unique_in by exact String.compare_eq_iff.
    rewrite in_map_iff. split; intros [r H]; exists r; tauto. }
  split.
  { unfold pivot_table, pivot_with. cbn [columns].
    rewrite sorted_unique_in by exact column_compare_eq.
    rewrite in_map_iff. split; intros [r H]; exists r; tauto. }
  unfold pivot_table. rewrite table_cell_pivot, group_values_filter.
  split.
  - intros H r Hin Hk.
    assert (In r (filter (in_group label col) frame)) as Hf
      by (apply filter_In; split; [exact Hin | now apply in_group_key]).
    destruct (filter (in_group label col) frame); [contradiction|].
    discriminate.
  - intros H. rewrite filter_nothing; [reflexivity|].
    intros r Hin. destruct (in_group label col r) eqn:E; [|reflexivity].
    apply in_group_key in E. now apply H in Hin.
Qed.

Lemma C4_pivot_table_witness :
  table_cell (pivot_table df) "Mar-26" ("Dixon", "Quick Ratio") = None
  /\ In "Mar-23" (index (pivot_table df)).
Proof.
  split.
  - apply (proj2 (proj2 (proj2 (proj2
             (C4_pivot_table df "Mar-26" ("Dixon", "Quick Ratio")))))).
    intros r Hin Hk. apply df_labels in Hin. inversion Hk as [[Hl Hc Hm]].
    rewrite Hl in Hin. simpl in Hin. intuition discriminate.
  - apply (proj1 (proj2 (proj2
             (C4_pivot_table df "Mar-23" ("Dixon", "Quick Ratio"))))).
    exists (mkRow "Dixon" "Quick Ratio" 1.27%float "Mar-23" 2023).
    split; [vm_compute; tauto | reflexivity].
Defined.

(** In a frame with at most one row per group and values that are their own
    mean, aggregating with the mean is looking the one row up. *)
Lemma pivot_mean_is_lookup (frame : list row) :
  NoDup (map group_key frame) ->
  (forall r, In r frame -> mean [Value r] = Value r) ->
  pivot_table frame = pivot_lookup frame
  /\ (forall r,
        In r frame ->
        table_cell (pivot_table frame) (YearLabel r) (Company r, Metric r)
        = Some (Value r))
  /\ (forall label col v,
        table_cell (pivot_table frame) label col = Some v ->
        exists r,
          In r frame /\ YearLabel r = label /\ (Company r, Metric r) = col
          /\ Value r = v
          /\ (forall r', In r' frame -> YearLabel r' = label ->
                         (Company r', Metric r') = col -> r' = r)).
Proof.
  intros Hnd Hmean.
  assert (forall label col,
            match group_values frame label col with
            | [] => None
            | vs => Some (mean vs)
            end
            = match group_values frame label col with
              | [] => None
              | vs => Some (one_value vs)
              end) as Hcell.
  { intros label col.
    destruct (group_values_unique frame label col Hnd)
      as [->|[r [Hin [_ [-> _]]]]]; [reflexivity|].
    now rewrite Hmean. }
  split; [|split].
  - unfold pivot_table, pivot_lookup, pivot_with. f_equal.
    apply map_ext. intros label. apply map_ext. intros col. apply Hcell.
  - intros r Hin. unfold pivot_table. rewrite table_cell_pivot.
    rewrite group_values_filter, (unique_group frame r Hnd Hin).
    cbn [map]. now rewrite Hmean.
  - intros label col v. unfold pivot_table. rewrite table_cell_pivot.
    destruct (group_values_unique frame label col Hnd)
      as [->|[r [Hin [Hk [-> Huniq]]]]]; [discriminate|].
    rewrite Hmean by exact Hin. intros H. inversion H; subst v.
    exists r. unfold group_key in Hk. inversion Hk; subst label col.
    repeat split; auto.
    intros r' Hin' Hl Hc. apply Huniq; [exact Hin'|].
    unfold group_key. now rewrite Hl, Hc.
Qed.

Lemma filtered_mean_of_one (metrics : list string) (yr_min yr_max : Z)
    (r : row) :
  In r (filter_by_group_and_range df metrics yr_min yr_max) ->
  mean [Value r] = Value r.
Proof.
  intros Hin. apply filter_by_group_and_range_in in Hin as [Hin _].
  pose proof df_mean_of_one as F. rewrite Forall_forall in F. auto.
Qed.

(** C10: for every filtered frame of [df], the pivot that aggregates with the
    mean is the plain one-row lookup pivot: every row's value is, exactly, the
    cell of its label, company and metric, and every cell that is present is
    the value of the one row with that label, company and metric. *)
Theorem C10_pivot_mean_is_lookup (metrics : list string) (yr_min yr_max : Z) :
  let dff := filter_by_group_and_range df metrics yr_min yr_max in
  NoDup (map group_key dff)
  /\ pivot_table dff = pivot_lookup dff
  /\ (forall r,
        In r dff ->
        table_cell (pivot_table dff) (YearLabel r) (Company r, Metric r)
        = Some (Value r))
  /\ (forall label col v,
        table_cell (pivot_table dff) label col = Some v ->
        exists r,
          In r dff /\ YearLabel r = label /\ (Company r, Metric r) = col
          /\ Value r = v
          /\ (forall r', In r' dff -> YearLabel r' = label ->
                         (Company r', Metric r') = col -> r' = r)).
Proof.
  cbv zeta.
  assert (NoDup
            (map group_key
               (filter_by_group_and_range df metrics yr_min yr_max)))
    as Hnd by apply NoDup_map_filter, df_groups_unique.
  split; [exact Hnd|].
  apply (pivot_mean_is_lookup _ Hnd).
  apply filtered_mean_of_one.
Qed.

Lemma C10_pivot_mean_is_lookup_witness :
  table_cell
    (pivot_table
       (filter_by_group_and_range df ["Inventory Turnover"] 2021 2021))
    "Mar-21" ("Dixon", "Inventory Turnover")
  = Some 15.48176253%float.
Proof.
  apply (proj1 (proj2 (proj2
           (C10_pivot_mean_is_lookup ["Inventory Turnover"] 2021 2021)))
           (mkRow "Dixon" "Inventory Turnover" 15.48176253%float
              "Mar-21" 2021)).
  vm_compute. tauto.
Defined.

(** * Further properties of the callbacks *)

(** ** The latest value on any frame *)

(** X1: On every frame [kpi_latest] raises nothing; it returns None exactly when
    no row has the company and the metric, and otherwise the value of such a
    row whose year no other such row exceeds. *)
Theorem kpi_latest_any_frame (frame : list row) (company metric : string) :
  exists v,
    kpi_latest frame company metric = Ok v
    /\ (v = None
        <-> forall r, In r frame ->
                      ~ (Company r = company /\ Metric r = metric))
    /\ (forall x,
          v = Some x ->
          exists r,
            In r frame /\ Company r = company /\ Metric r = metric
            /\ Value r = x
            /\ (forall r', In r' frame -> Company r' = company ->
                           Metric r' = metric -> Year r' <= Year r)).
Proof.
  destruct (kpi_latest_spec frame company metric)
    as [[He Hk]|[r [Hin [Hmax [_ Hk]]]]].
  - exists None. split; [exact Hk|]. split.
    + split; [|reflexivity]. intros _ r Hin [Hc Hm].
      assert (In r (select frame company metric)) as H
        by (apply select_in; auto).
      rewrite He in H. contradiction.
    + discriminate.
  - exists (Some (Value r)). split; [exact Hk|].
    apply select_in in Hin as Hr. destruct Hr as [Hf [Hc Hm]]. split.
    + split; [discriminate|]. intros H. exfalso. apply (H r Hf). auto.
    + intros x Hx. inversion Hx; subst x. exists r.
      repeat split; auto.
      intros r' Hin' Hc' Hm'. apply Hmax, select_in. auto.
Qed.

Lemma kpi_latest_any_frame_witness :
  exists v,
    kpi_latest [mkRow "A" "m" 1%float "y1" 1; mkRow "A" "m" 2%float "y3" 3;
                mkRow "A" "m" 3%float "y2" 2] "A" "m" = Ok v
    /\ v = Some 2%float.
Proof.
  destruct (kpi_latest_any_frame
              [mkRow "A" "m" 1%float "y1" 1; mkRow "A" "m" 2%float "y3" 3;
               mkRow "A" "m" 3%float "y2" 2] "A" "m") as [v [Hk _]].
  exists v. split; [exact Hk|].
  vm_compute in Hk. inversion Hk. reflexivity.
Defined.

(** ** Errors of [update_charts] *)

(** X2: [update_charts] returns its outputs exactly when the year range has two
    elements and the group is a key of [metric_groups]; a year range of
    another length raises ValueError, whatever the group, and an unknown group
    with a two-element range raises KeyError. *)
Theorem update_charts_outcome (company group : string) (year_range : list Z) :
  (List.length year_range <> 2%nat ->
   update_charts company group year_range = Raise ValueError)
  /\ (List.length year_range = 2%nat ->
      ~ In group (map fst metric_groups) ->
      update_charts company group year_range = Raise KeyError)
  /\ ((exists out, update_charts company group year_range = Ok out)
      <-> List.length year_range = 2%nat /\ In group (map fst metric_groups)).
Proof.
  assert (List.length year_range <> 2%nat ->
          update_charts company group year_range = Raise ValueError) as Hv.
  { destruct year_range as [|a [|b [|c l]]]; simpl; intros H;
      try reflexivity. congruence. }
  assert (List.length year_range = 2%nat ->
          ~ In group (map fst metric_groups) ->
          update_charts company group year_range = Raise KeyError) as Hk.
  { destruct year_range as [|a [|b [|c l]]]; try discriminate.
    intros _ H. unfold update_charts. cbn [unpack2 bind].
    rewrite metric_groups_unknown; [reflexivity| | |];
      intros ->; apply H; simpl; auto. }
  split; [exact Hv|]. split; [exact Hk|]. split.
  - intros [out Hout].
    destruct (Nat.eq_dec (List.length year_range) 2) as [E|E];
      [|rewrite (Hv E) in Hout; discriminate].
    split; [exact E|].
    destruct (in_dec string_dec group (map fst metric_groups)) as [I|I];
      [exact I|].
    rewrite (Hk E I) in Hout. discriminate.
  - intros [E I].
    destruct year_range as [|a [|b [|c l]]]; try discriminate.
    simpl in I.
    destruct I as [<-|[<-|[<-|[]]]];
      match goal with
      | |- exists out, update_charts _ ?g _ = Ok out =>
          let m := eval vm_compute in (dict_getitem metric_groups g) in
          match m with
          | Ok ?ms =>
              destruct (update_charts_ok company g ms a b eq_refl)
                as [primary [_ H]]
          end
      end; eexists; exact H.
Qed.

Lemma update_charts_outcome_witness :
  update_charts "Both" "bogus" [2021] = Raise ValueError
  /\ update_charts "Both" "bogus" [2021; 2022] = Raise KeyError
  /\ exists out, update_charts "Both" "turnover" [2021; 2022] = Ok out.
Proof.
  split; [|split].
  - apply (proj1 (update_charts_outcome "Both" "bogus" [2021])).
    simpl. discriminate.
  - apply (proj1 (proj2 (update_charts_outcome "Both" "bogus" [2021; 2022]))).
    + reflexivity.
    + simpl. intuition discriminate.
  - apply (proj2 (proj2 (update_charts_outcome "Both" "turnover"
                           [2021; 2022]))).
    split; [reflexivity | simpl; auto].
Defined.

(** ** What the company selection does not change *)

(** X3: The table that [update_charts] returns, or the exception it raises, is
    the same for every company selection. *)
Theorem table_independent_of_company (company company' group : string)
    (year_range : list Z) :
  table_output (update_charts company group year_range)
  = table_output (update_charts company' group year_range).
Proof.
  unfold update_charts, table_output.
  destruct (unpack2 year_range) as [[yr_min yr_max]|e]; cbn [bind];
    [|reflexivity].
  destruct (dict_getitem metric_groups group) as [metrics|e]; cbn [bind];
    [|reflexivity].
  destruct (list_getitem metrics 0) as [primary|e]; cbn [bind snd];
    reflexivity.
Qed.

(** ** Narrowing and widening the year range *)

Lemma filter_filter {A : Type} (f g : A -> bool) (l : list A) :
  filter f (filter g l) = filter (fun a => g a && f a) l.
Proof.
  induction l as [|a l IH]; simpl; [reflexivity|].
  destruct (g a); simpl; [destruct (f a)|]; now rewrite IH.
Qed.

(** X4: On every frame, a year range inside another selects a part of what the
    other selects, and filtering the wider selection again with the narrower
    range gives the narrower selection. *)
Theorem narrower_range_selects_less (frame : list row) (metrics : list string)
    (yr_min yr_max yr_min' yr_max' : Z) :
  yr_min <= yr_min' -> yr_max' <= yr_max ->
  incl (filter_by_group_and_range frame metrics yr_min' yr_max')
       (filter_by_group_and_range frame metrics yr_min yr_max)
  /\ filter_by_group_and_range
       (filter_by_group_and_range frame metrics yr_min yr_max)
       metrics yr_min' yr_max'
     = filter_by_group_and_range frame metrics yr_min' yr_max'.
Proof.
  intros Hmin Hmax. split.
  - intros r Hin. apply filter_by_group_and_range_in in Hin.
    apply filter_by_group_and_range_in. intuition lia.
  - unfold filter_by_group_and_range. rewrite filter_filter.
    apply filter_ext. intros r.
    destruct (isin (Metric r) metrics); simpl; [|reflexivity].
    destruct (Z.leb_spec yr_min (Year r)), (Z.leb_spec (Year r) yr_max),
      (Z.leb_spec yr_min' (Year r)), (Z.leb_spec (Year r) yr_max');
      simpl; try reflexivity; lia.
Qed.

Lemma narrower_range_selects_less_witness :
  incl (filter_by_group_and_range df ["Quick Ratio"] 2023 2024)
       (filter_by_group_and_range df ["Quick Ratio"] 2021 2025)
  /\ filter_by_group_and_range
       (filter_by_group_and_range df ["Quick Ratio"] 2021 2025)
       ["Quick Ratio"] 2023 2024
     = filter_by_group_and_range df ["Quick Ratio"] 2023 2024.
Proof.
  apply (narrower_range_selects_less df ["Quick Ratio"] 2021 2025 2023 2024);
    lia.
Defined.

Lemma df_years_from_2021 : Forall (fun r => 2021 <= Year r) df.
Proof. each_row ltac:(easy). Qed.

Lemma df_year_bounds (r : row) : In r df -> 2021 <= Year r <= 2025.
Proof.
  intros Hin. pose proof df_years_from_2021 as L.
  pose proof df_years_up_to_2025 as U.
  rewrite Forall_forall in L, U. split; [apply L | apply U]; exact Hin.
Qed.

(** X5: A year range reaching beyond 2021..2025 gives what its part inside
    2021..2025 gives: the same three outputs, or the same exception. *)
Theorem year_range_clamped (company group : string) (yr_min yr_max : Z) :
  update_charts company group [yr_min; yr_max]
  = update_charts company group [Z.max yr_min 2021; Z.min yr_max 2025].
Proof.
  unfold update_charts. cbn [unpack2 bind].
  destruct (dict_getitem metric_groups group) as [metrics|e]; cbn [bind];
    [|reflexivity].
  assert (filter_by_group_and_range df metrics yr_min yr_max
          = filter_by_group_and_range df metrics (Z.max yr_min 2021)
              (Z.min yr_max 2025)) as E.
  { unfold filter_by_group_and_range. apply filter_ext_in. intros r Hin.
    apply df_year_bounds in Hin.
    destruct (isin (Metric r) metrics); simpl; [|reflexivity].
    destruct (Z.leb_spec yr_min (Year r)), (Z.leb_spec (Year r) yr_max),
      (Z.leb_spec (Z.max yr_min 2021) (Year r)),
      (Z.leb_spec (Year r) (Z.min yr_max 2025));
      simpl; try reflexivity; lia. }
  now rewrite E.
Qed.

(** ** The points of a series *)

Lemma StronglySorted_filter {A : Type} (R : A -> A -> Prop) (f : A -> bool)
    (l : list A) :
  StronglySorted R l -> StronglySorted R (filter f l).
Proof.
  induction 1 as [|a l Hs IH Hall]; simpl; [constructor|].
  destruct (f a); [|exact IH].
  constructor; [exact IH|].
  apply Forall_forall. intros x Hx. apply filter_In in Hx as [Hx _].
  rewrite Forall_forall in Hall. auto.
Qed.

Lemma sort_values_Year_sorted_id (l : list row) :
  StronglySorted year_le l -> sort_values_Year l = l.
Proof.
  induction 1 as [|a l Hs IH Hall]; simpl; [reflexivity|].
  rewrite IH. destruct l as [|b l]; [reflexivity|]. simpl.
  apply Forall_inv in Hall. unfold year_le in Hall.
  apply Z.leb_le in Hall. now rewrite Hall.
Qed.

Lemma year_lt_le (l : list row) :
  StronglySorted year_lt l -> StronglySorted year_le l.
Proof.
  induction 1 as [|a l Hs IH Hall]; constructor; [exact IH|].
  eapply Forall_impl; [|exact Hall]. unfold year_lt, year_le. intros; lia.
Qed.

Lemma select_filtered (frame : list row) (metrics : list string)
    (yr_min yr_max : Z) (company metric : string) :
  In metric metrics ->
  select (filter_by_group_and_range frame metrics yr_min yr_max)
    company metric
  = filter (in_range yr_min yr_max) (select frame company metric).
Proof.
  intros Hm. unfold select, filter_by_group_and_range.
  rewrite !filter_filter. apply filter_ext. intros r. unfold in_range.
  destruct (String.eqb_spec (Metric r) metric) as [E|E].
  - apply isin_In in Hm. rewrite E, Hm.
    destruct (String.eqb (Company r) company),
      (Z.leb yr_min (Year r)), (Z.leb (Year r) yr_max); reflexivity.
  - destruct (isin (Metric r) metrics), (String.eqb (Company r) company),
      (Z.leb yr_min (Year r)), (Z.leb (Year r) yr_max); reflexivity.
Qed.

(** In [df] the rows of one company and one metric come in strictly
    ascending year order. *)
Lemma df_select_ascending (company metric : string) :
  StronglySorted year_lt (select df company metric).
Proof.
  destruct (in_dec string_dec company companies) as [Hc|Hc].
  - destruct (in_dec string_dec metric (map fst dixon)) as [Hm|Hm].
    + simpl in Hc, Hm.
      repeat (destruct Hc as [<-|Hc]; [|]); try contradiction;
        repeat (destruct Hm as [<-|Hm]; [|]); try contradiction;
        vm_compute;
        repeat (apply SSorted_cons;
                [|repeat (apply Forall_cons; [reflexivity|]);
                  apply Forall_nil]);
        apply SSorted_nil.
    + unfold select. rewrite filter_nothing; [constructor|].
      intros r Hin. apply df_metrics in Hin.
      destruct (String.eqb_spec (Metric r) metric) as [E|E];
        [congruence | apply andb_false_r].
  - unfold select. rewrite filter_nothing; [constructor|].
    intros r Hin. apply df_companies in Hin.
    destruct (String.eqb_spec (Company r) company) as [E|E];
      [congruence | reflexivity].
Qed.

Lemma series_for_dataset (company metric : string) (metrics : list string)
    (yr_min yr_max : Z) :
  In metric metrics ->
  series_for (filter_by_group_and_range df metrics yr_min yr_max)
    company metric
  = filter (in_range yr_min yr_max) (select df company metric).
Proof.
  intros Hm. unfold series_for. rewrite select_filtered by exact Hm.
  apply sort_values_Year_sorted_id, year_lt_le, StronglySorted_filter,
    df_select_ascending.
Qed.

(** X6: With a metric of the selected list, the series of a company and that
    metric consists of the rows of [df] for the company and the metric whose
    year lies in the range, each once, in strictly ascending year order: the
    sort leaves the build order as it is. *)
Theorem series_points (company metric : string) (metrics : list string)
    (yr_min yr_max : Z) :
  In metric metrics ->
  series_for (filter_by_group_and_range df metrics yr_min yr_max)
    company metric
  = filter (in_range yr_min yr_max) (select df company metric)
  /\ (forall r,
        In r (series_for (filter_by_group_and_range df metrics yr_min yr_max)
                company metric)
        <-> In r df /\ Company r = company /\ Metric r = metric
            /\ yr_min <= Year r <= yr_max)
  /\ StronglySorted year_lt
       (series_for (filter_by_group_and_range df metrics yr_min yr_max)
          company metric).
Proof.
  intros Hm.
  assert (StronglySorted year_lt
            (filter (in_range yr_min yr_max) (select df company metric)))
    as Hs by apply StronglySorted_filter, df_select_ascending.
  assert (series_for (filter_by_group_and_range df metrics yr_min yr_max)
            company metric
          = filter (in_range yr_min yr_max) (select df company metric)) as E.
  { now apply series_for_dataset. }
  rewrite E. split; [reflexivity|]. split; [|exact Hs].
  intros r. rewrite filter_In, select_in. unfold in_range.
  rewrite andb_true_iff, !Z.leb_le. tauto.
Qed.

Lemma series_points_witness :
  map YearLabel
    (series_for (filter_by_group_and_range df ["Quick Ratio"] 2022 2023)
       "Dixon" "Quick Ratio")
  = ["Mar-22"; "Mar-23"].
Proof.
  rewrite (proj1 (series_points "Dixon" "Quick Ratio" ["Quick Ratio"]
                    2022 2023 (or_introl eq_refl))).
  vm_compute. reflexivity.
Defined.

(** ** The labels on the bars *)

Lemma bar_trace_shape (s : list row) (name : string) :
  (forall r, In r s -> finite (Value r)) ->
  exists x y name',
    bar_trace s name = Bar x y name' (map format_2f y) "auto"
    /\ List.length x = List.length y
    /\ Forall two_decimals (map format_2f y).
Proof.
  intros Hfin.
  exists (map YearLabel s), (map Value s), name.
  split; [reflexivity|]. split; [now rewrite !length_map|].
  apply Forall_forall. intros t Ht.
  apply in_map_iff in Ht as [v [<- Hv]].
  apply in_map_iff in Hv as [r [<- Hr]].
  apply format_2f_two_decimals. now apply Hfin.
Qed.

Lemma series_for_in (frame : list row) (company metric : string) (r : row) :
  In r (series_for frame company metric)
  <-> In r frame /\ Company r = company /\ Metric r = metric.
Proof.
  unfold series_for. rewrite sort_values_Year_in. apply select_in.
Qed.

Lemma series_for_finite (metrics : list string) (yr_min yr_max : Z)
    (company metric : string) (r : row) :
  In r (series_for (filter_by_group_and_range df metrics yr_min yr_max)
          company metric) ->
  finite (Value r).
Proof.
  intros Hr.
  apply (proj1 (series_for_in _ _ _ _)) in Hr as [Hr _].
  apply (proj1 (filter_by_group_and_range_in _ _ _ _ _)) in Hr as [Hr _].
  pose proof df_values_finite as F. rewrite Forall_forall in F. auto.
Qed.

(** X7: With a key of [metric_groups], every series of the main chart is a bar
    series with as many points as year labels, labelled value by value with
    the value in two decimals, and every series of the sparkline is a line
    with markers with as many points as year labels. *)
Theorem bar_labels (company group : string) (metrics : list string)
    (yr_min yr_max : Z) :
  dict_getitem metric_groups group = Ok metrics ->
  exists fig spark tbl,
    update_charts company group [yr_min; yr_max] = Ok (fig, spark, tbl)
    /\ Forall
         (fun t =>
            exists x y name,
              t = Bar x y name (map format_2f y) "auto"
              /\ List.length x = List.length y
              /\ Forall two_decimals (map format_2f y))
         (data fig)
    /\ Forall
         (fun t =>
            exists x y name,
              t = Scatter x y "lines+markers" name
              /\ List.length x = List.length y)
         (data spark).
Proof.
  intros Hg.
  destruct (update_charts_ok company group metrics yr_min yr_max Hg)
    as [primary [_ H]].
  exists (main_chart (filter_by_group_and_range df metrics yr_min yr_max)
            company group metrics),
         (spark_chart (filter_by_group_and_range df metrics yr_min yr_max)
            company primary),
         (table_round 3
            (pivot_table (filter_by_group_and_range df metrics yr_min yr_max))).
  split; [exact H|].
  rewrite main_chart_data, spark_chart_data. split.
  - unfold main_series. apply Forall_forall. intros t.
    destruct (String.eqb company "Both").
    + rewrite in_flat_map. intros [m [_ Hin]].
      apply in_map_iff in Hin as [c [<- _]].
      apply bar_trace_shape. intros r. apply series_for_finite.
    + rewrite in_map_iff. intros [m [<- _]].
      apply bar_trace_shape. intros r. apply series_for_finite.
  - unfold spark_series, scatter_trace. apply Forall_forall. intros t.
    destruct (String.eqb company "Both").
    + rewrite in_map_iff. intros [c [<- _]].
      do 3 eexists. split; [reflexivity | now rewrite !length_map].
    + intros [<-|[]].
      do 3 eexists. split; [reflexivity | now rewrite !length_map].
Qed.

Lemma bar_labels_witness :
  exists fig spark tbl,
    update_charts "Dixon" "turnover" [2021; 2021] = Ok (fig, spark, tbl)
    /\ map trace_text (data fig) = [["15.48"]; ["2.27"]; ["11.84"]].
Proof.
  destruct (bar_labels "Dixon" "turnover"
              ["Inventory Turnover"; "Asset Turnover";
               "Trade Receivable Turnover"] 2021 2021 eq_refl)
    as [fig [spark [tbl [H _]]]].
  exists fig, spark, tbl. split; [exact H|].
  vm_compute in H. inversion H. reflexivity.
Defined.

(** ** The rows of a year range and the three groups *)

(** X8: Every row of [df] whose year lies in the range is in the filtered frame of
    exactly one key of [metric_groups]. *)
Theorem row_in_one_group (r : row) (yr_min yr_max : Z) :
  In r df -> yr_min <= Year r <= yr_max ->
  exists group metrics,
    dict_getitem metric_groups group = Ok metrics
    /\ In r (filter_by_group_and_range df metrics yr_min yr_max)
    /\ (forall group' metrics',
          dict_getitem metric_groups group' = Ok metrics' ->
          In r (filter_by_group_and_range df metrics' yr_min yr_max) ->
          group' = group).
Proof.
  intros Hin Hy. pose proof (df_metrics r Hin) as Hm. simpl in Hm.
  assert (exists group metrics,
            dict_getitem metric_groups group = Ok metrics
            /\ In (Metric r) metrics
            /\ (forall group' metrics',
                  dict_getitem metric_groups group' = Ok metrics' ->
                  In (Metric r) metrics' -> group' = group)) as Hgroup.
  { destruct Hm as [Hm|[Hm|[Hm|[Hm|[Hm|[Hm|[Hm|[]]]]]]]]; rewrite <- Hm;
      first
        [ exists "liquidity", ["Current Ratio"; "Quick Ratio"];
          split; [reflexivity|]; split; [solve [simpl; auto 6]|]
        | exists "profitability",
            ["Gross Profit Margin"; "Net Profit Margin"];
          split; [reflexivity|]; split; [solve [simpl; auto 6]|]
        | exists "turnover",
            ["Inventory Turnover"; "Asset Turnover";
             "Trade Receivable Turnover"];
          split; [reflexivity|]; split; [solve [simpl; auto 6]|] ];
      intros g' ms' Hg' Hin';
      destruct (metric_groups_inv _ _ Hg') as [[-> ->]|[[-> ->]|[-> ->]]];
      first [reflexivity | simpl in Hin'; intuition discriminate]. }
  destruct Hgroup as [g [ms [Hg [Hms Hu]]]]. exists g, ms.
  split; [exact Hg|]. split.
  - apply filter_by_group_and_range_in. auto.
  - intros g' ms' Hg' Hr'. apply (Hu g' ms' Hg').
    now apply filter_by_group_and_range_in in Hr'.
Qed.

Lemma row_in_one_group_witness :
  exists group metrics,
    dict_getitem metric_groups group = Ok metrics
    /\ In (mkRow "Dixon" "Asset Turnover" 2.60%float "Mar-23" 2023)
          (filter_by_group_and_range df metrics 2022 2024)
    /\ (forall group' metrics',
          dict_getitem metric_groups group' = Ok metrics' ->
          In (mkRow "Dixon" "Asset Turnover" 2.60%float "Mar-23" 2023)
             (filter_by_group_and_range df metrics' 2022 2024) ->
          group' = group).
Proof.
  apply (row_in_one_group
           (mkRow "Dixon" "Asset Turnover" 2.60%float "Mar-23" 2023)
           2022 2024).
  - vm_compute. tauto.
  - simpl. lia.
Defined.

(** ** The KPI cards and the chart agree *)

Lemma iloc_last_filter {A : Type} (f : A -> bool) (l : list A) (a : A) :
  iloc_last l = Ok a -> f a = true -> iloc_last (filter f l) = Ok a.
Proof.
  intros Hl Ha. induction l as [|b [|c l] IH]; [discriminate| |].
  - inversion Hl; subst b. simpl. now rewrite Ha.
  - specialize (IH Hl). change (filter f (b :: c :: l))
      with (if f b then b :: filter f (c :: l) else filter f (c :: l)).
    destruct (f b); [|exact IH].
    destruct (filter f (c :: l)) as [|d l']; [discriminate|exact IH].
Qed.

(** The latest row of a company and a metric of the dataset: the last of its
    rows in [df], of the year 2025. *)
Lemma latest_row (company metric : string) :
  In company companies -> In metric (map fst dixon) ->
  exists r,
    iloc_last (select df company metric) = Ok r
    /\ Year r = 2025 /\ latest company metric = Some (Value r).
Proof.
  intros Hc Hm. simpl in Hc, Hm.
  repeat (destruct Hc as [<-|Hc]; [|]); try contradiction;
    repeat (destruct Hm as [<-|Hm]; [|]); try contradiction;
    eexists; (split; [vm_compute; reflexivity|]);
    split; vm_compute; reflexivity.
Qed.

Lemma metric_groups_metrics (group : string) (metrics : list string)
    (metric : string) :
  dict_getitem metric_groups group = Ok metrics -> In metric metrics ->
  In metric (map fst dixon).
Proof.
  intros Hg Hm.
  destruct (metric_groups_inv _ _ Hg) as [[_ ->]|[[_ ->]|[_ ->]]];
    simpl in Hm |- *; intuition.
Qed.

(** X9: When the year range contains 2025, the last bar of the series of a
    company and a metric of the selected group carries the text of that
    metric's KPI value for the company: the chart of the company alone has
    the series under the metric's name, the chart of both companies under
    "<Company> — <Metric>". *)
Theorem kpi_matches_last_bar (company metric group : string)
    (metrics : list string) (yr_min yr_max : Z) :
  In company companies ->
  dict_getitem metric_groups group = Ok metrics ->
  In metric metrics ->
  yr_min <= 2025 <= yr_max ->
  (exists fig spark tbl t,
     update_charts company group [yr_min; yr_max] = Ok (fig, spark, tbl)
     /\ In t (data fig) /\ trace_name t = metric
     /\ iloc_last (trace_text t) = Ok (kpi_text (latest company metric)))
  /\ (exists fig spark tbl t,
        update_charts "Both" group [yr_min; yr_max] = Ok (fig, spark, tbl)
        /\ In t (data fig)
        /\ trace_name t = (company ++ " — " ++ metric)%string
        /\ iloc_last (trace_text t) = Ok (kpi_text (latest company metric))).
Proof.
  intros Hc Hg Hm Hy.
  destruct (latest_row company metric Hc (metric_groups_metrics _ _ _ Hg Hm))
    as [r [Hlast [Hyear Hlatest]]].
  assert (forall name,
            iloc_last
              (trace_text
                 (bar_trace
                    (series_for
                       (filter_by_group_and_range df metrics yr_min yr_max)
                       company metric) name))
            = Ok (kpi_text (latest company metric))) as Htext.
  { intros name. rewrite series_for_dataset by exact Hm.
    unfold bar_trace, trace_text. rewrite !iloc_last_map.
    rewrite (iloc_last_filter _ _ r Hlast).
    - now rewrite Hlatest.
    - unfold in_range. rewrite Hyear.
      apply andb_true_iff. split; apply Z.leb_le; lia. }
  assert (company <> "Both") as Hnb
    by (simpl in Hc; intuition (subst; discriminate)).
  split.
  - destruct (update_charts_ok company group metrics yr_min yr_max Hg)
      as [primary [_ H]].
    do 3 eexists.
    exists (bar_trace
              (series_for (filter_by_group_and_range df metrics yr_min yr_max)
                 company metric) metric).
    split; [exact H|]. rewrite main_chart_data. unfold main_series.
    destruct (String.eqb_spec company "Both"); [contradiction|].
    split; [|split; [reflexivity | apply Htext]].
    apply in_map_iff. exists metric. auto.
  - destruct (update_charts_ok "Both" group metrics yr_min yr_max Hg)
      as [primary [_ H]].
    do 3 eexists.
    exists (bar_trace
              (series_for (filter_by_group_and_range df metrics yr_min yr_max)
                 company metric) (company ++ " — " ++ metric)%string).
    split; [exact H|]. rewrite main_chart_data. unfold main_series.
    change (String.eqb "Both" "Both") with true. cbv iota.
    split; [|split; [reflexivity | apply Htext]].
    apply in_flat_map. exists metric. split; [exact Hm|].
    apply in_map_iff. exists company. auto.
Qed.

Lemma kpi_matches_last_bar_witness :
  exists fig spark tbl t,
    update_charts "Both" "liquidity" [2024; 2030] = Ok (fig, spark, tbl)
    /\ In t (data fig)
    /\ trace_name t = "Honeywell — Quick Ratio"
    /\ iloc_last (trace_text t) = Ok "3.24".
Proof.
  apply (proj2 (kpi_matches_last_bar "Honeywell" "Quick Ratio" "liquidity"
                  ["Current Ratio"; "Quick Ratio"] 2024 2030
                  (or_intror (or_introl eq_refl)) eq_refl
                  (or_intror (or_introl eq_refl))
                  (conj (Zle_bool_imp_le 2024 2025 eq_refl)
                        (Zle_bool_imp_le 2025 2030 eq_refl)))).
Defined.

(** ** Both companies and each company alone *)

Lemma both_series_interleave (dff : list row) (metrics : list string) :
  map trace_points
    (flat_map
       (fun metric =>
          map (fun comp =>
                 bar_trace (series_for dff comp metric)
                   (comp ++ " — " ++ metric)%string)
              companies)
       metrics)
  = interleave
      (map trace_points
         (map (fun metric => bar_trace (series_for dff "Dixon" metric) metric)
            metrics))
      (map trace_points
         (map (fun metric =>
                 bar_trace (series_for dff "Honeywell" metric) metric)
            metrics)).
Proof.
  induction metrics as [|m ms IH]; [reflexivity|].
  cbn [flat_map map companies app interleave] in IH |- *.
  rewrite IH. reflexivity.
Qed.

(** X10: With a key of [metric_groups], the chart of both companies has the bars
    of the two single-company charts, Dixon's and Honeywell's series
    alternating metric by metric with the same points and labels; its
    sparkline has Dixon's sparkline series followed by Honeywell's. *)
Theorem both_combines_single_company_charts (group : string)
    (metrics : list string) (yr_min yr_max : Z) :
  dict_getitem metric_groups group = Ok metrics ->
  exists fig spark tbl fig_d spark_d tbl_d fig_h spark_h tbl_h,
    update_charts "Both" group [yr_min; yr_max] = Ok (fig, spark, tbl)
    /\ update_charts "Dixon" group [yr_min; yr_max]
       = Ok (fig_d, spark_d, tbl_d)
    /\ update_charts "Honeywell" group [yr_min; yr_max]
       = Ok (fig_h, spark_h, tbl_h)
    /\ map trace_points (data fig)
       = interleave (map trace_points (data fig_d))
           (map trace_points (data fig_h))
    /\ data spark = data spark_d ++ data spark_h.
Proof.
  intros Hg.
  destruct (update_charts_ok "Both" group metrics yr_min yr_max Hg)
    as [primary [Hp Hb]].
  destruct (update_charts_ok "Dixon" group metrics yr_min yr_max Hg)
    as [primary_d [Hpd Hd]].
  destruct (update_charts_ok "Honeywell" group metrics yr_min yr_max Hg)
    as [primary_h [Hph Hh]].
  rewrite Hp in Hpd, Hph. inversion Hpd; subst primary_d.
  inversion Hph; subst primary_h.
  do 9 eexists.
  split; [exact Hb|]. split; [exact Hd|]. split; [exact Hh|].
  rewrite !main_chart_data, !spark_chart_data.
  split; [apply both_series_interleave | reflexivity].
Qed.

Lemma both_combines_single_company_charts_witness :
  exists fig spark tbl fig_d spark_d tbl_d fig_h spark_h tbl_h,
    update_charts "Both" "liquidity" [2025; 2025] = Ok (fig, spark, tbl)
    /\ update_charts "Dixon" "liquidity" [2025; 2025]
       = Ok (fig_d, spark_d, tbl_d)
    /\ update_charts "Honeywell" "liquidity" [2025; 2025]
       = Ok (fig_h, spark_h, tbl_h)
    /\ map trace_points (data fig)
       = interleave (map trace_points (data fig_d))
           (map trace_points (data fig_h))
    /\ data spark = data spark_d ++ data spark_h.
Proof.
  apply (both_combines_single_company_charts "liquidity"
           ["Current Ratio"; "Quick Ratio"] 2025 2025 eq_refl).
Defined.

(** ** The states the controls can produce *)

(** X11: In every state that the two dropdowns and the range slider can produce,
    both callbacks return without an exception, every series of the main
    chart and of the sparkline has a point, and the table has a row; the
    initial state is such a state. *)
Theorem offered_states_never_raise (st : ControlState) :
  offered st ->
  offered initial_state
  /\ exists cards fig spark tbl,
       kpi_cards st = Ok cards
       /\ chart_outputs st = Ok (fig, spark, tbl)
       /\ Forall (fun t => trace_x t <> []) (data fig)
       /\ Forall (fun t => trace_x t <> []) (data spark)
       /\ index tbl <> [].
Proof.
  intros H. split.
  { split; [simpl; auto|]. split; [simpl; auto|].
    exists 2021, 2025. split; [reflexivity|].
    split; [simpl; auto|]. split; [simpl; auto 6 | lia]. }
  destruct st as [company group range].
  destruct H as [Hc [Hg [lo [hi [Hr [Hlo [Hhi Hle]]]]]]].
  cbn [company_select metric_group year_range_value] in Hc, Hg, Hr.
  unfold kpi_cards, chart_outputs.
  cbn [company_select metric_group year_range_value]. subst range.
  simpl in Hc, Hg, Hlo, Hhi.
  destruct Hc as [<-|[<-|[<-|[]]]];
    destruct Hg as [<-|[<-|[<-|[]]]];
    destruct Hlo as [<-|[<-|[<-|[<-|[<-|[]]]]]];
    destruct Hhi as [<-|[<-|[<-|[<-|[<-|[]]]]]];
    try (exfalso; lia);
    do 4 eexists;
    (split; [vm_compute; reflexivity|]);
    (split; [vm_compute; reflexivity|]);
    cbn [data index];
    repeat split;
    repeat (apply Forall_cons; [discriminate|]);
    try apply Forall_nil; discriminate.
Qed.

Lemma offered_states_never_raise_witness :
  exists cards fig spark tbl,
    kpi_cards (mkControlState "Honeywell" "turnover" [2022; 2024]) = Ok cards
    /\ chart_outputs (mkControlState "Honeywell" "turnover" [2022; 2024])
       = Ok (fig, spark, tbl)
    /\ Forall (fun t => trace_x t <> []) (data fig)
    /\ Forall (fun t => trace_x t <> []) (data spark)
    /\ index tbl <> [].
Proof.
  apply (proj2 (offered_states_never_raise
                  (mkControlState "Honeywell" "turnover" [2022; 2024])
                  (conj (or_intror (or_introl eq_refl))
                     (conj (or_intror (or_intror (or_introl eq_refl)))
                        (ex_intro _ 2022
                           (ex_intro _ 2024
                              (conj eq_refl
                                 (conj (or_intror (or_introl eq_refl))
                                    (conj
                                       (or_intror
                                          (or_intror
                                             (or_intror (or_introl eq_refl))))
                                       (Zle_bool_imp_le 2022 2024
                                          eq_refl)))))))))).
Defined.

(** ** The table *)

Lemma table_cell_round (decimals : nat) (t : table) (label : string)
    (col : column) :
  table_cell (table_round decimals t) label col
  = option_map (round_decimals decimals) (table_cell t label col).
Proof.
  unfold table_cell, table_round. cbn [index columns cells].
  destruct (position String.eqb label (index t)) as [i|]; [|reflexivity].
  destruct (position column_eqb col (columns t)) as [j|]; [|reflexivity].
  change (@nil (option float))
    with (map (option_map (round_decimals decimals)) []) at 1.
  rewrite map_nth.
  change (@None float) with (option_map (round_decimals decimals) None) at 1.
  now rewrite map_nth.
Qed.

(** Rounding to three decimals changes no value of [df] but Dixon's
    Inventory Turnover, which is given with eight. *)
Lemma df_round_3 :
  Forall
    (fun r =>
       (Company r, Metric r) = ("Dixon", "Inventory Turnover")
       \/ round_decimals 3 (Value r) = Value r)
    df.
Proof.
  each_row ltac:(first [right; reflexivity | left; reflexivity]).
Qed.

(** X12: With a key of [metric_groups], the table holds, for every row of the
    filtered frame, the row's value rounded to three decimals in the cell of
    its year label, company and metric; this is the value itself, except for
    Dixon's Inventory Turnover. *)
Theorem table_holds_rounded_values (company group : string)
    (metrics : list string) (yr_min yr_max : Z) (r : row) :
  dict_getitem metric_groups group = Ok metrics ->
  In r (filter_by_group_and_range df metrics yr_min yr_max) ->
  exists fig spark tbl,
    update_charts company group [yr_min; yr_max] = Ok (fig, spark, tbl)
    /\ table_cell tbl (YearLabel r) (Company r, Metric r)
       = Some (round_decimals 3 (Value r))
    /\ ((Company r, Metric r) <> ("Dixon", "Inventory Turnover") ->
        table_cell tbl (YearLabel r) (Company r, Metric r) = Some (Value r)).
Proof.
  intros Hg Hr.
  destruct (update_charts_ok company group metrics yr_min yr_max Hg)
    as [primary [_ H]].
  do 3 eexists. split; [exact H|].
  assert (table_cell
            (table_round 3
               (pivot_table
                  (filter_by_group_and_range df metrics yr_min yr_max)))
            (YearLabel r) (Company r, Metric r)
          = Some (round_decimals 3 (Value r))) as E.
  { rewrite table_cell_round.
    destruct (pivot_mean_is_lookup
                (filter_by_group_and_range df metrics yr_min yr_max))
      as [_ [Hcell _]].
    - apply NoDup_map_filter, df_groups_unique.
    - apply filtered_mean_of_one.
    - now rewrite (Hcell r Hr). }
  split; [exact E|]. intros Hne. rewrite E.
  apply (proj1 (filter_by_group_and_range_in _ _ _ _ _)) in Hr as [Hdf _].
  pose proof df_round_3 as F. rewrite Forall_forall in F.
  destruct (F r Hdf) as [Hk|Hv]; [contradiction | now rewrite Hv].
Qed.

Lemma table_holds_rounded_values_witness :
  exists fig spark tbl,
    update_charts "Both" "turnover" [2021; 2021] = Ok (fig, spark, tbl)
    /\ table_cell tbl "Mar-21" ("Dixon", "Inventory Turnover")
       = Some 15.482%float.
Proof.
  destruct (table_holds_rounded_values "Both" "turnover"
              ["Inventory Turnover"; "Asset Turnover";
               "Trade Receivable Turnover"] 2021 2021
              (mkRow "Dixon" "Inventory Turnover" 15.48176253%float
                 "Mar-21" 2021) eq_refl)
    as [fig [spark [tbl [H [Hc _]]]]].
  - vm_compute. tauto.
  - exists fig, spark, tbl. split; [exact H|].
    cbn [YearLabel Company Metric Value] in Hc. rewrite Hc.
    vm_compute. reflexivity.
Defined.

Lemma existsb_filter_mem (p : Z -> bool) (y : Z) (l : list Z) :
  In y l -> existsb (Z.eqb y) (filter p l) = p y.
Proof.
  intros Hin. destruct (p y) eqn:E.
  - apply existsb_exists. exists y.
    split; [apply filter_In; auto | apply Z.eqb_refl].
  - destruct (existsb (Z.eqb y) (filter p l)) eqn:X; [|reflexivity].
    apply existsb_exists in X as [z [Hz Hyz]].
    apply Z.eqb_eq in Hyz. subst z.
    apply filter_In in Hz as [_ Hz]. congruence.
Qed.

Lemma df_year_numbers (r : row) : In r df -> In (Year r) year_numbers.
Proof.
  revert r. apply Forall_forall. each_row ltac:(tauto).
Qed.

(** The filtered frame, by the years of [year_numbers] that are in the
    range. *)
Lemma filtered_by_years (metrics : list string) (yr_min yr_max : Z) :
  filter_by_group_and_range df metrics yr_min yr_max
  = filter
      (fun r =>
         isin (Metric r) metrics
         && existsb (Z.eqb (Year r))
              (filter (year_between yr_min yr_max) year_numbers))
      df.
Proof.
  unfold filter_by_group_and_range. apply filter_ext_in. intros r Hin.
  rewrite existsb_filter_mem by now apply df_year_numbers.
  unfold year_between. now rewrite andb_assoc.
Qed.

Lemma pivot_of_years (p : Z -> bool) (group : string)
    (metrics : list string) :
  dict_getitem metric_groups group = Ok metrics ->
  let tbl :=
    table_round 3
      (pivot_table
         (filter
            (fun r =>
               isin (Metric r) metrics
               && existsb (Z.eqb (Year r)) (filter p year_numbers))
            df)) in
  index tbl = labels_where p
  /\ columns tbl
     = (if empty (labels_where p) then []
        else sorted_unique column_compare (list_prod companies metrics))
  /\ List.length (cells tbl) = List.length (index tbl)
  /\ Forall
       (fun cs =>
          List.length cs = List.length (columns tbl) /\ Forall present cs)
       (cells tbl).
Proof.
  intros Hg. cbv zeta. unfold labels_where, year_numbers, years.
  cbn [combine filter fst].
  destruct (metric_groups_inv _ _ Hg) as [[_ ->]|[[_ ->]|[_ ->]]];
    destruct (p 2021), (p 2022), (p 2023), (p 2024), (p 2025);
    vm_compute;
    (split; [reflexivity|]); (split; [reflexivity|]);
    (split; [reflexivity|]);
    repeat (apply Forall_cons;
            [split; [reflexivity|];
             repeat (apply Forall_cons; [discriminate|]); apply Forall_nil|]);
    apply Forall_nil.
Qed.

(** X13: With a key of [metric_groups], the table has one row per year of the
    range, labelled in year order, and, unless it has no row, one column per
    company and metric of the group, ordered by company and then by metric
    name; every row has a cell in every column and no cell is missing. *)
Theorem table_is_complete (company group : string) (metrics : list string)
    (yr_min yr_max : Z) :
  dict_getitem metric_groups group = Ok metrics ->
  exists fig spark tbl,
    update_charts company group [yr_min; yr_max] = Ok (fig, spark, tbl)
    /\ index tbl = labels_where (year_between yr_min yr_max)
    /\ columns tbl
       = (if empty (labels_where (year_between yr_min yr_max)) then []
          else sorted_unique column_compare (list_prod companies metrics))
    /\ List.length (cells tbl) = List.length (index tbl)
    /\ Forall
         (fun cs =>
            List.length cs = List.length (columns tbl) /\ Forall present cs)
         (cells tbl).
Proof.
  intros Hg.
  destruct (update_charts_ok company group metrics yr_min yr_max Hg)
    as [primary [_ H]].
  rewrite filtered_by_years in H.
  do 3 eexists. split; [exact H|].
  exact (pivot_of_years (year_between yr_min yr_max) group metrics Hg).
Qed.

Lemma table_is_complete_witness :
  exists fig spark tbl,
    update_charts "Dixon" "turnover" [2024; 2030] = Ok (fig, spark, tbl)
    /\ index tbl = ["Mar-24"; "Mar-25"]
    /\ columns tbl
       = [ ("Dixon", "Asset Turnover"); ("Dixon", "Inventory Turnover");
           ("Dixon", "Trade Receivable Turnover");
           ("Honeywell", "Asset Turnover");
           ("Honeywell", "Inventory Turnover");
           ("Honeywell", "Trade Receivable Turnover") ].
Proof.
  destruct (table_is_complete "Dixon" "turnover"
              ["Inventory Turnover"; "Asset Turnover";
               "Trade Receivable Turnover"] 2024 2030 eq_refl)
    as [fig [spark [tbl [H [Hi [Hc _]]]]]].
  exists fig, spark, tbl. split; [exact H|].
  rewrite Hi, Hc. split; vm_compute; reflexivity.
Defined.

(** ** The sparkline and the main chart *)

(** X14: With a key of [metric_groups], the sparkline repeats the points of the
    first series of the main chart: of the first two, one per company, when
    both companies are selected. *)
Theorem sparkline_repeats_first_bars (company group : string)
    (metrics : list string) (yr_min yr_max : Z) :
  dict_getitem metric_groups group = Ok metrics ->
  exists fig spark tbl,
    update_charts company group [yr_min; yr_max] = Ok (fig, spark, tbl)
    /\ map trace_xy (data spark)
       = firstn (if String.eqb company "Both" then 2 else 1)
           (map trace_xy (data fig)).
Proof.
  intros Hg.
  destruct (update_charts_ok company group metrics yr_min yr_max Hg)
    as [primary [Hp H]].
  do 3 eexists. split; [exact H|].
  rewrite main_chart_data, spark_chart_data.
  unfold main_series, spark_series.
  generalize (filter_by_group_and_range df metrics yr_min yr_max) as dff.
  intros dff. clear H.
  destruct (metric_groups_inv _ _ Hg) as [[_ ->]|[[_ ->]|[_ ->]]];
    inversion Hp; subst primary;
    destruct (String.eqb company "Both"); reflexivity.
Qed.

Lemma sparkline_repeats_first_bars_witness :
  exists fig spark tbl,
    update_charts "Both" "profitability" [2021; 2022] = Ok (fig, spark, tbl)
    /\ map trace_xy (data spark) = firstn 2 (map trace_xy (data fig)).
Proof.
  apply (sparkline_repeats_first_bars "Both" "profitability"
           ["Gross Profit Margin"; "Net Profit Margin"] 2021 2022 eq_refl).
Defined.
